(** * Verification of package [config] (Vuls configuration and its validation)

    A shallow embedding of [config/config.go]: the configuration structs, the
    three [Validate] methods, [checkEmails], and the [ServerInfo] helpers.

    Go strings are byte strings ([string]); slices are lists, with
    [append(xs, y...)] written [xs ++ ys]; [map[string]ServerInfo] is a
    [gmap string ServerInfo]; a Go [error] is a value of the inductive type
    [error], which keeps apart the values built by [fmt.Errorf] and the
    aggregated [Errors] value handed back by the validator library.

    The third-party packages (govalidator, logrus) are not part of the
    package.  The format predicates and [ValidateStruct] are parameters of the
    development; logrus is modelled by the sequence of entries written.

    A second embedding keeps the string slices of the settings as headers
    into a heap of backing arrays, with [append] writing in place when the
    capacity allows; it is related to the first and used to tell what
    [Validate] does to the memory it is handed. *)

From Stdlib Require Import ZArith Ascii Floats.SpecFloat.
From stdpp Require Import base list strings gmap.

Local Open Scope nat_scope.

(** ** Go builtins used by the package *)

Module Go.

(** [len(s)] on a string: the number of bytes. *)
Definition len (s : string) : nat := String.length s.

(** [s == t] on strings. *)
Definition streq (s t : string) : bool := String.eqb s t.

(** [strings.HasPrefix(s, prefix)]. *)
Fixpoint HasPrefix (s prefix : string) {struct prefix} : bool :=
  match prefix, s with
  | EmptyString, _ => true
  | String _ _, EmptyString => false
  | String p ps, String c cs => Ascii.eqb c p && HasPrefix cs ps
  end.

(** [fmt.Sprintf] restricted to the verb the package uses, [%s], applied to
    string operands.  A verb with no operand left prints Go's
    [%!s(MISSING)]; any other byte is copied. *)
Fixpoint Sprintf (format : string) (args : list string) : string :=
  match format with
  | EmptyString => EmptyString
  | String "%"%char (String "s"%char rest) =>
      match args with
      | a :: args' => a +:+ Sprintf rest args'
      | [] => "%!s(MISSING)" +:+ Sprintf rest []
      end
  | String ch rest => String ch (Sprintf rest args)
  end.

(** An empty interface value, as far as the configuration loader produces
    them for [ServerInfo.Optional]. *)
Inductive interface_value : Type :=
| INil
| IBool (b : bool)
| IInt (z : Z)
| IFloat (f : spec_float)
| IString (s : string).

End Go.

(** ** Errors *)

(** govalidator's [Error{Name, Err}] and [Errors []error]. *)
Record valid_Error : Type := mk_valid_Error {
  Name : string;
  Err : string
}.

Definition Errors : Type := list valid_Error.

(** A Go [error] value as this package meets them: the value of a
    [fmt.Errorf] call, carrying its message, or the [Errors] value returned
    by [valid.ValidateStruct]. *)
Inductive error : Type :=
| ErrorString (msg : string)
| ValidatorErrors (es : Errors).

(** [fmt.Errorf(format, args...)]. *)
Definition Errorf (format : string) (args : list string) : error :=
  ErrorString (Go.Sprintf format args).

(** ** The configuration structs *)

(** [type Container struct]. *)
Record Container : Type := mk_Container {
  ContainerID : string;
  Container_Name : string;
  Container_Type : string
}.

(** [type ServerInfo struct]. *)
Record ServerInfo : Type := mk_ServerInfo {
  ServerName : string;
  ServerInfo_User : string;
  Host : string;
  Port : string;
  KeyPath : string;
  KeyPassword : string;
  CpeNames : list string;
  Containers : list string;
  Optional : list (list Go.interface_value);
  LogMsgAnsiColor : string;
  ServerInfo_Container : Container;
  Family : string
}.

(** [type smtpConf struct]. *)
Record smtpConf : Type := mk_smtpConf {
  SMTPAddr : string;
  SMTPPort : string;
  smtp_User : string;
  Password : string;
  From : string;
  To : list string;
  Cc : list string;
  SubjectPrefix : string;
  smtp_UseThisTime : bool
}.

(** [type SlackConf struct]. *)
Record SlackConf : Type := mk_SlackConf {
  HookURL : string;
  Channel : string;
  IconEmoji : string;
  AuthUser : string;
  NotifyUsers : list string;
  Text : string;
  Slack_UseThisTime : bool
}.

(** [type Config struct]. *)
Record Config : Type := mk_Config {
  Debug : bool;
  DebugSQL : bool;
  Lang : string;
  Mail : smtpConf;
  Slack : SlackConf;
  Default : ServerInfo;
  Servers : gmap string ServerInfo;
  CveDictionaryURL : string;
  CvssScoreOver : spec_float;
  IgnoreUnscoredCves : bool;
  SSHExternal : bool;
  HTTPProxy : string;
  JSONBaseDir : string;
  CveDBPath : string;
  AwsProfile : string;
  AwsRegion : string;
  S3Bucket : string;
  AzureAccount : string;
  AzureKey : string;
  AzureContainer : string
}.

(** ** Struct tags *)

(** What reflection shows the validator library of a struct: the string
    fields that carry a [valid:"..."] tag, in declaration order. *)
Record StructField : Type := mk_StructField {
  FieldName : string;
  FieldTag : string;
  FieldValue : string
}.

Class Struct (A : Type) : Type := tagged_fields : A -> list StructField.

#[export] Instance Struct_Config : Struct Config := fun c =>
  [ mk_StructField "CveDictionaryURL" "url" (CveDictionaryURL c);
    mk_StructField "HTTPProxy" "url" (HTTPProxy c) ].

#[export] Instance Struct_smtpConf : Struct smtpConf := fun c =>
  [ mk_StructField "SMTPPort" "port" (SMTPPort c) ].

#[export] Instance Struct_SlackConf : Struct SlackConf := fun c =>
  [ mk_StructField "HookURL" "url" (HookURL c) ].

(** ** The process state: the global [Conf] and what logrus has written *)

(** [var Conf Config], and the entries handed to [log.Error], oldest first. *)
Record World : Type := mk_World {
  Conf : Config;
  Logged : list error
}.

(** Code that may write a log entry or touch [Conf]. *)
Definition IO (A : Type) : Type := World -> A * World.

Definition ret {A : Type} (a : A) : IO A := fun w => (a, w).

Definition bind {A B : Type} (m : IO A) (k : A -> IO B) : IO B :=
  fun w => let (a, w') := m w in k a w'.

Notation "x <- m ;; k" := (bind m (fun x => k))
  (at level 100, m at next level, right associativity).
Notation "m ;;; k" := (bind m (fun _ => k))
  (at level 100, right associativity).

(** [log.Error(err)]. *)
Definition log_Error (err : error) : IO unit := fun w =>
  (tt, mk_World (Conf w) (Logged w ++ [err])).

(** [for _, x := range xs { body(x) }]. *)
Fixpoint for_range {A : Type} (xs : list A) (body : A -> IO unit) : IO unit :=
  match xs with
  | [] => ret tt
  | x :: xs' => body x ;;; for_range xs' body
  end.

(** ** The package's functions *)

Section Validation.

(** The entry points of govalidator the package calls.  [IsFilePath] returns
    [(bool, int)] and [ValidateStruct] returns [(bool, error)], with [None]
    for a nil error; [ValidateStruct] sees its argument through reflection. *)
Context (IsFilePath : string -> bool * Z).
Context (IsEmail : string -> bool).
Context (ValidateStruct : forall A : Type, Struct A -> A -> bool * option Errors).

(** The body of [checkEmails]' loop over [emails], entered with the errors
    collected so far; the bare [return] inside the loop hands back the named
    result [errs] as it stands. *)
Fixpoint checkEmails_range (emails : list string) (errs : list error) : list error :=
  match emails with
  | [] => errs
  | addr :: emails' =>
      if Go.len addr =? 0 then errs
      else
        let errs :=
          if negb (IsEmail addr)
          then errs ++ [Errorf "Invalid email address. email: %s" [addr]]
          else errs in
        checkEmails_range emails' errs
  end.

(** [func checkEmails(emails []string) (errs []error)]. *)
Definition checkEmails (emails : list string) : list error :=
  checkEmails_range emails [].

(** [func (c *smtpConf) Validate() (errs []error)]. *)
Definition smtpConf_Validate (c : smtpConf) : list error :=
  let errs := [] in
  if negb (smtp_UseThisTime c) then errs
  else
    let emails := [] in
    let emails := emails ++ [From c] in
    let emails := emails ++ To c in
    let emails := emails ++ Cc c in
    let emailErrs := checkEmails emails in
    let errs := if 0 <? length emailErrs then errs ++ emailErrs else errs in
    let errs :=
      if Go.len (SMTPAddr c) =? 0
      then errs ++ [Errorf "smtpAddr must not be empty" []] else errs in
    let errs :=
      if Go.len (SMTPPort c) =? 0
      then errs ++ [Errorf "smtpPort must not be empty" []] else errs in
    let errs :=
      if length (To c) =? 0
      then errs ++ [Errorf "To required at least one address" []] else errs in
    let errs :=
      if Go.len (From c) =? 0
      then errs ++ [Errorf "From required at least one address" []] else errs in
    let err := (ValidateStruct smtpConf _ c).2 in
    let errs :=
      match err with
      | Some e => errs ++ [ValidatorErrors e]
      | None => errs
      end in
    errs.

(** [func (c *SlackConf) Validate() (errs []error)]. *)
Definition SlackConf_Validate (c : SlackConf) : list error :=
  let errs := [] in
  if negb (Slack_UseThisTime c) then errs
  else
    let errs :=
      if Go.len (HookURL c) =? 0
      then errs ++ [Errorf "hookURL must not be empty" []] else errs in
    let errs :=
      if Go.len (Channel c) =? 0
      then errs ++ [Errorf "channel must not be empty" []]
      else
        if negb (Go.HasPrefix (Channel c) "#" || Go.streq (Channel c) "${servername}")
        then errs ++ [Errorf "channel's prefix must be '#', channel: %s" [Channel c]]
        else errs in
    let errs :=
      if Go.len (AuthUser c) =? 0
      then errs ++ [Errorf "authUser must not be empty" []] else errs in
    let err := (ValidateStruct SlackConf _ c).2 in
    let errs :=
      match err with
      | Some e => errs ++ [ValidatorErrors e]
      | None => errs
      end in
    errs.

(** The local [errs] of [Config.Validate] when the logging loop is reached
    (lines 67 to 94). *)
Definition Config_Validate_errs (c : Config) : list error :=
  let errs := [] in
  let errs :=
    if negb (Go.len (JSONBaseDir c) =? 0) then
      if negb (IsFilePath (JSONBaseDir c)).1
      then errs ++ [Errorf
        "JSON base directory must be a *Absolute* file path. jsonBaseDir: %s"
        [JSONBaseDir c]]
      else errs
    else errs in
  let errs :=
    if negb (Go.len (CveDBPath c) =? 0) then
      if negb (IsFilePath (CveDBPath c)).1
      then errs ++ [Errorf
        "SQLite3 DB(Cve Dictionary) path must be a *Absolute* file path. dbpath: %s"
        [CveDBPath c]]
      else errs
    else errs in
  let err := (ValidateStruct Config _ c).2 in
  let errs :=
    match err with
    | Some e => errs ++ [ValidatorErrors e]
    | None => errs
    end in
  let mailerrs := smtpConf_Validate (Mail c) in
  let errs := if 0 <? length mailerrs then errs ++ mailerrs else errs in
  let slackerrs := SlackConf_Validate (Slack c) in
  let errs := if 0 <? length slackerrs then errs ++ slackerrs else errs in
  errs.

(** [func (c Config) Validate() bool]: the receiver is a copy of the caller's
    value. *)
Definition Config_Validate (c : Config) : IO bool :=
  let errs := Config_Validate_errs c in
  for_range errs log_Error ;;;
  ret (length errs =? 0).

(** [Conf.Validate()], the call on the package's global. *)
Definition Conf_Validate : IO bool := fun w => Config_Validate (Conf w) w.

End Validation.

(** [func (s ServerInfo) IsContainer() bool]. *)
Definition IsContainer (s : ServerInfo) : bool :=
  0 <? Go.len (ContainerID (ServerInfo_Container s)).

(** [func (s ServerInfo) IsLocal() bool]. *)
Definition IsLocal (s : ServerInfo) : bool :=
  Go.streq (Host s) "localhost" || Go.streq (Host s) "127.0.0.1".

(** [func (s *ServerInfo) SetContainer(d Container)]: the receiver after the
    call. *)
Definition SetContainer (s : ServerInfo) (d : Container) : ServerInfo :=
  mk_ServerInfo (ServerName s) (ServerInfo_User s) (Host s) (Port s)
    (KeyPath s) (KeyPassword s) (CpeNames s) (Containers s) (Optional s)
    (LogMsgAnsiColor s) d (Family s).

(** ** The validator library's struct pass *)

Section Govalidator.

(** govalidator's [TagMap]: the format predicate a tag names. *)
Context (TagMap : string -> string -> bool).

(** One tagged field of the struct pass: an empty value is not validated. *)
Definition field_violation (f : StructField) : option valid_Error :=
  if Go.len (FieldValue f) =? 0 then None
  else if TagMap (FieldTag f) (FieldValue f) then None
  else Some (mk_valid_Error (FieldName f)
               (FieldValue f +:+ " does not validate as " +:+ FieldTag f)).

(** Modelled from the spec: [valid.ValidateStruct] belongs to govalidator,
    which is outside the package.  Section 4.1 item 3 of the specification
    describes it as the general structural validation over all fields tagged
    with a format constraint, each checked when non-empty, whose failures are
    appended as a single aggregated error. *)
Definition ValidateStruct_tags (A : Type) (T : Struct A) (s : A)
  : bool * option Errors :=
  match omap field_violation (tagged_fields s) with
  | [] => (true, None)
  | errs => (false, Some errs)
  end.

End Govalidator.

(** ** Zero values *)

Definition zero_Container : Container := mk_Container "" "" "".

Definition zero_ServerInfo : ServerInfo :=
  mk_ServerInfo "" "" "" "" "" "" [] [] [] "" zero_Container "".

Definition zero_smtpConf : smtpConf :=
  mk_smtpConf "" "" "" "" "" [] [] "" false.

Definition zero_SlackConf : SlackConf :=
  mk_SlackConf "" "" "" "" [] "" false.

Definition zero_Config : Config :=
  mk_Config false false "" zero_smtpConf zero_SlackConf zero_ServerInfo ∅
    "" (S754_zero false) false false "" "" "" "" "" "" "" "" "".

(** ** The settings in memory

    A [[]string] is a slice header over a backing array that other headers
    may share, and [append] writes into that array when the capacity
    allows.  To tell what [Validate] does to the settings it is given, the
    string slices of the mail and chat blocks are kept here as headers into
    a heap of backing arrays, and [append] and the [range] loop work on that
    heap.  Strings are immutable and the [[]error] locals of the validators
    cannot share an array with a [[]string], so errors stay plain lists. *)

(** A slice header: the backing array, the index of the slice's first
    element in it, [len] and [cap]. *)
Record slice : Type := mk_slice {
  slice_array : positive;
  slice_off : nat;
  slice_len : nat;
  slice_cap : nat
}.

(** [[]string{}], and the nil slice: no element, no capacity. *)
Definition empty_slice : slice := mk_slice 1 0 0 0.

(** [type smtpConf struct], [To] and [Cc] as headers. *)
Record smtpConf_mem : Type := mk_smtpConf_mem {
  mem_SMTPAddr : string;
  mem_SMTPPort : string;
  mem_smtp_User : string;
  mem_Password : string;
  mem_From : string;
  mem_To : slice;
  mem_Cc : slice;
  mem_SubjectPrefix : string;
  mem_smtp_UseThisTime : bool
}.

(** [type SlackConf struct], [NotifyUsers] as a header. *)
Record SlackConf_mem : Type := mk_SlackConf_mem {
  mem_HookURL : string;
  mem_Channel : string;
  mem_IconEmoji : string;
  mem_AuthUser : string;
  mem_NotifyUsers : slice;
  mem_Text : string;
  mem_Slack_UseThisTime : bool
}.

(** [type Config struct] over the two blocks above.  The server profiles
    are carried as values: [Validate] hands them to nothing but the struct
    pass. *)
Record Config_mem : Type := mk_Config_mem {
  mem_Debug : bool;
  mem_DebugSQL : bool;
  mem_Lang : string;
  mem_Mail : smtpConf_mem;
  mem_Slack : SlackConf_mem;
  mem_Default : ServerInfo;
  mem_Servers : gmap string ServerInfo;
  mem_CveDictionaryURL : string;
  mem_CvssScoreOver : spec_float;
  mem_IgnoreUnscoredCves : bool;
  mem_SSHExternal : bool;
  mem_HTTPProxy : string;
  mem_JSONBaseDir : string;
  mem_CveDBPath : string;
  mem_AwsProfile : string;
  mem_AwsRegion : string;
  mem_S3Bucket : string;
  mem_AzureAccount : string;
  mem_AzureKey : string;
  mem_AzureContainer : string
}.

(** The process: the backing arrays, the global [Conf], and the entries
    handed to [log.Error]. *)
Record Process : Type := mk_Process {
  heap : gmap positive (list string);
  global_Conf : Config_mem;
  written : list error
}.

(** Code that runs in a process. *)
Definition Run (A : Type) : Type := Process -> A * Process.

Definition run_ret {A : Type} (a : A) : Run A := fun p => (a, p).

Definition run_bind {A B : Type} (m : Run A) (k : A -> Run B) : Run B :=
  fun p => let (a, p') := m p in k a p'.

Notation "'do' x <~ m ; k" := (run_bind m (fun x => k))
  (at level 100, x name, m at next level, k at level 100, right associativity).

(** The array a header points into; a header of no capacity may point
    nowhere. *)
Definition backing (h : gmap positive (list string)) (s : slice) : list string :=
  default [] (h !! slice_array s).

(** The elements [s[0] ... s[len(s)-1]]. *)
Definition contents (h : gmap positive (list string)) (s : slice) : list string :=
  take (slice_len s) (drop (slice_off s) (backing h s)).

(** [s[i]] as the [range] loop reads it, for [i] below [len(s)]. *)
Definition index (s : slice) (i : nat) : Run string := fun p =>
  (default "" (backing (heap p) s !! (slice_off s + i)), p).

(** The array [a] with [xs] written from position [i] on. *)
Definition store_at (a : list string) (i : nat) (xs : list string) : list string :=
  take i a ++ xs ++ drop (i + length xs) a.

(** [log.Error(err)] in a process. *)
Definition log_Error_mem (err : error) : Run unit := fun p =>
  (tt, mk_Process (heap p) (global_Conf p) (written p ++ [err])).

(** [for _, x := range xs { body(x) }] over a local list. *)
Fixpoint for_range_mem {A : Type} (xs : list A) (body : A -> Run unit) : Run unit :=
  match xs with
  | [] => run_ret tt
  | x :: xs' => do _u <~ body x ; for_range_mem xs' body
  end.

(** What reflection reads of a mail block, a chat block and the settings:
    the struct with every slice replaced by its elements. *)
Definition load_smtpConf (h : gmap positive (list string)) (c : smtpConf_mem)
  : smtpConf :=
  mk_smtpConf (mem_SMTPAddr c) (mem_SMTPPort c) (mem_smtp_User c) (mem_Password c)
    (mem_From c) (contents h (mem_To c)) (contents h (mem_Cc c))
    (mem_SubjectPrefix c) (mem_smtp_UseThisTime c).

Definition load_SlackConf (h : gmap positive (list string)) (c : SlackConf_mem)
  : SlackConf :=
  mk_SlackConf (mem_HookURL c) (mem_Channel c) (mem_IconEmoji c) (mem_AuthUser c)
    (contents h (mem_NotifyUsers c)) (mem_Text c) (mem_Slack_UseThisTime c).

Definition load_Config (h : gmap positive (list string)) (c : Config_mem) : Config :=
  mk_Config (mem_Debug c) (mem_DebugSQL c) (mem_Lang c)
    (load_smtpConf h (mem_Mail c)) (load_SlackConf h (mem_Slack c))
    (mem_Default c) (mem_Servers c) (mem_CveDictionaryURL c)
    (mem_CvssScoreOver c) (mem_IgnoreUnscoredCves c) (mem_SSHExternal c)
    (mem_HTTPProxy c) (mem_JSONBaseDir c) (mem_CveDBPath c) (mem_AwsProfile c)
    (mem_AwsRegion c) (mem_S3Bucket c) (mem_AzureAccount c) (mem_AzureKey c)
    (mem_AzureContainer c).

(** A header that stays inside its array: [len <= cap] and the capacity
    ends no later than the array. *)
Definition slice_ok (h : gmap positive (list string)) (s : slice) : bool :=
  (slice_len s <=? slice_cap s) &&
  (slice_off s + slice_cap s <=? length (backing h s)).

(** Settings whose three string slices stay inside their arrays. *)
Definition settings_ok (h : gmap positive (list string)) (c : Config_mem) : bool :=
  slice_ok h (mem_To (mem_Mail c)) && slice_ok h (mem_Cc (mem_Mail c)) &&
  slice_ok h (mem_NotifyUsers (mem_Slack c)).

Section ValidationInMemory.

(** The capacity the runtime gives a grown array, from the old capacity and
    the length needed. *)
Context (growcap : nat -> nat -> nat).
Context (IsFilePath : string -> bool * Z).
Context (IsEmail : string -> bool).
Context (ValidateStruct : forall A : Type, Struct A -> A -> bool * option Errors).

(** [append(s, xs...)]: when [len(s) + len(xs)] fits the capacity the values
    are written into the backing array of [s] behind its last element;
    otherwise a new array is allocated, the elements of [s] and the values
    are copied into it, and the rest of it holds zero values. *)
Definition append (s : slice) (xs : list string) : Run slice := fun p =>
  let n := slice_len s + length xs in
  if n <=? slice_cap s then
    (mk_slice (slice_array s) (slice_off s) n (slice_cap s),
     mk_Process
       (alter (fun a => store_at a (slice_off s + slice_len s) xs)
          (slice_array s) (heap p))
       (global_Conf p) (written p))
  else
    let newcap := growcap (slice_cap s) n in
    let l := fresh (dom (heap p)) in
    (mk_slice l 0 n newcap,
     mk_Process
       (<[l := contents (heap p) s ++ xs ++ replicate (newcap - n) ""]> (heap p))
       (global_Conf p) (written p)).

(** [append(s, src...)] with a slice as the variadic argument. *)
Definition append_slice (s src : slice) : Run slice := fun p =>
  append s (contents (heap p) src) p.

(** The loop of [checkEmails] from index [i] on, with [n] elements to go. *)
Fixpoint checkEmails_mem_range (emails : slice) (i n : nat) (errs : list error)
  : Run (list error) :=
  match n with
  | 0 => run_ret errs
  | S n' =>
      do addr <~ index emails i ;
      if Go.len addr =? 0 then run_ret errs
      else
        let errs :=
          if negb (IsEmail addr)
          then errs ++ [Errorf "Invalid email address. email: %s" [addr]]
          else errs in
        checkEmails_mem_range emails (S i) n' errs
  end.

(** [func checkEmails(emails []string) (errs []error)]. *)
Definition checkEmails_mem (emails : slice) : Run (list error) :=
  checkEmails_mem_range emails 0 (slice_len emails) [].

(** [func (c *smtpConf) Validate() (errs []error)]. *)
Definition smtpConf_Validate_mem (c : smtpConf_mem) : Run (list error) :=
  let errs := [] in
  if negb (mem_smtp_UseThisTime c) then run_ret errs
  else
    let emails := empty_slice in
    do emails <~ append emails [mem_From c] ;
    do emails <~ append_slice emails (mem_To c) ;
    do emails <~ append_slice emails (mem_Cc c) ;
    do emailErrs <~ checkEmails_mem emails ;
    let errs := if 0 <? length emailErrs then errs ++ emailErrs else errs in
    let errs :=
      if Go.len (mem_SMTPAddr c) =? 0
      then errs ++ [Errorf "smtpAddr must not be empty" []] else errs in
    let errs :=
      if Go.len (mem_SMTPPort c) =? 0
      then errs ++ [Errorf "smtpPort must not be empty" []] else errs in
    let errs :=
      if slice_len (mem_To c) =? 0
      then errs ++ [Errorf "To required at least one address" []] else errs in
    let errs :=
      if Go.len (mem_From c) =? 0
      then errs ++ [Errorf "From required at least one address" []] else errs in
    fun p =>
      let err := (ValidateStruct smtpConf _ (load_smtpConf (heap p) c)).2 in
      let errs :=
        match err with
        | Some e => errs ++ [ValidatorErrors e]
        | None => errs
        end in
      (errs, p).

(** [func (c *SlackConf) Validate() (errs []error)]. *)
Definition SlackConf_Validate_mem (c : SlackConf_mem) : Run (list error) :=
  let errs := [] in
  if negb (mem_Slack_UseThisTime c) then run_ret errs
  else
    let errs :=
      if Go.len (mem_HookURL c) =? 0
      then errs ++ [Errorf "hookURL must not be empty" []] else errs in
    let errs :=
      if Go.len (mem_Channel c) =? 0
      then errs ++ [Errorf "channel must not be empty" []]
      else
        if negb (Go.HasPrefix (mem_Channel c) "#" ||
                 Go.streq (mem_Channel c) "${servername}")
        then errs ++ [Errorf "channel's prefix must be '#', channel: %s"
                        [mem_Channel c]]
        else errs in
    let errs :=
      if Go.len (mem_AuthUser c) =? 0
      then errs ++ [Errorf "authUser must not be empty" []] else errs in
    fun p =>
      let err := (ValidateStruct SlackConf _ (load_SlackConf (heap p) c)).2 in
      let errs :=
        match err with
        | Some e => errs ++ [ValidatorErrors e]
        | None => errs
        end in
      (errs, p).

(** [func (c Config) Validate() bool] on a copy [c] of the caller's
    settings: the copy shares the backing arrays of its slices with the
    original. *)
Definition Config_Validate_mem (c : Config_mem) : Run bool :=
  let errs := [] in
  let errs :=
    if negb (Go.len (mem_JSONBaseDir c) =? 0) then
      if negb (IsFilePath (mem_JSONBaseDir c)).1
      then errs ++ [Errorf
        "JSON base directory must be a *Absolute* file path. jsonBaseDir: %s"
        [mem_JSONBaseDir c]]
      else errs
    else errs in
  let errs :=
    if negb (Go.len (mem_CveDBPath c) =? 0) then
      if negb (IsFilePath (mem_CveDBPath c)).1
      then errs ++ [Errorf
        "SQLite3 DB(Cve Dictionary) path must be a *Absolute* file path. dbpath: %s"
        [mem_CveDBPath c]]
      else errs
    else errs in
  do err <~ (fun p => ((ValidateStruct Config _ (load_Config (heap p) c)).2, p)) ;
  let errs :=
    match err with
    | Some e => errs ++ [ValidatorErrors e]
    | None => errs
    end in
  do mailerrs <~ smtpConf_Validate_mem (mem_Mail c) ;
  let errs := if 0 <? length mailerrs then errs ++ mailerrs else errs in
  do slackerrs <~ SlackConf_Validate_mem (mem_Slack c) ;
  let errs := if 0 <? length slackerrs then errs ++ slackerrs else errs in
  do _u <~ for_range_mem errs log_Error_mem ;
  run_ret (length errs =? 0).

(** [Conf.Validate()], the call on the package's global. *)
Definition Conf_Validate_mem : Run bool := fun p =>
  Config_Validate_mem (global_Conf p) p.

End ValidationInMemory.

(** ** A concrete reading of the library, for running the model *)

Module Sample.

(** Paths that start with a slash count as Unix paths (kind 2), all others
    are unknown (kind 0). *)
Definition IsFilePath (s : string) : bool * Z :=
  if Go.HasPrefix s "/" then (true, 2%Z) else (false, 0%Z).

Fixpoint has_at (s : string) : bool :=
  match s with
  | EmptyString => false
  | String c s' => Ascii.eqb c "@" || has_at s'
  end.

(** An address needs something on both sides of an at sign. *)
Definition IsEmail (s : string) : bool :=
  match s with
  | EmptyString => false
  | String c s' => negb (Ascii.eqb c "@") && has_at s' &&
                   negb (Go.HasPrefix (String.rev s) "@")
  end.

Fixpoint all_digits (s : string) : bool :=
  match s with
  | EmptyString => true
  | String c s' => (48 <=? nat_of_ascii c) && (nat_of_ascii c <=? 57) && all_digits s'
  end.

Definition TagMap (tag value : string) : bool :=
  if Go.streq tag "url" then
    Go.HasPrefix value "http://" || Go.HasPrefix value "https://"
  else if Go.streq tag "port" then
    all_digits value && (Go.len value <=? 5)
  else true.

Definition ValidateStruct := ValidateStruct_tags TagMap.

Definition mail : smtpConf :=
  mk_smtpConf "smtp.example.com" "25" "" "" "a@b.com" ["c@d.com"] [] "" true.

Definition slack : SlackConf :=
  mk_SlackConf "https://hooks.example.com/x" "#general" "" "vuls" [] "" true.

Definition server : ServerInfo :=
  mk_ServerInfo "web" "root" "localhost" "22" "" "" [] [] [] ""
    (mk_Container "abc123" "app" "docker") "".

Definition config : Config :=
  mk_Config false false "en" mail slack zero_ServerInfo ∅
    "http://localhost:1323" (S754_zero false) false false "" "/var/json"
    "/var/cve.sqlite3" "" "" "" "" "" "".

(** A disabled mail block full of garbage, and the same block enabled: its
    combined address list is [bad, x@y, (empty), worse, zz]. *)
Definition mail_off : smtpConf :=
  mk_smtpConf "" "99x" "" "" "bad" ["x@y"; ""; "worse"] ["zz"] "" false.

Definition mail_gap : smtpConf :=
  mk_smtpConf "" "99x" "" "" "bad" ["x@y"; ""; "worse"] ["zz"] "" true.

Definition slack_off : SlackConf :=
  mk_SlackConf "ftp://x" "general" "" "" [] "" false.

Definition slack_general : SlackConf :=
  mk_SlackConf "https://hooks.example.com/x" "general" "" "vuls" [] "" true.

Definition config_relative_json : Config :=
  mk_Config false false "en" mail slack zero_ServerInfo ∅
    "http://localhost:1323" (S754_zero false) false false "" "relative/path"
    "/var/cve.sqlite3" "" "" "" "" "" "".

Definition config_relative_db : Config :=
  mk_Config false false "en" mail slack zero_ServerInfo ∅
    "http://localhost:1323" (S754_zero false) false false "" "/var/json"
    "cve.sqlite3" "" "" "" "" "" "".

(** An enabled mail block with no sender and malformed recipients, and one
    whose first recipient is blank. *)
Definition mail_no_sender : smtpConf :=
  mk_smtpConf "smtp.example.com" "25" "" "" "" ["nonsense"] ["also bad"] "" true.

Definition mail_blank_to : smtpConf :=
  mk_smtpConf "smtp.example.com" "25" "" "" "a@b.com" [""; "garbage"] ["junk"] ""
    true.

(** An enabled chat block with every field left empty. *)
Definition slack_blank : SlackConf :=
  mk_SlackConf "" "" "" "" [] "" true.

(** The sample settings with other flags, language, proxy-free cloud names
    and server profiles; the paths, the URLs and the two blocks are those of
    [config]. *)
Definition config_other : Config :=
  mk_Config true true "ja" mail slack server {[ "web" := server ]}
    "http://localhost:1323" (S754_zero true) true true "" "/var/json"
    "/var/cve.sqlite3" "default" "us-east-1" "bucket" "account" "key" "vuls".

(** A runtime that at least doubles a grown array. *)
Definition growcap (old needed : nat) : nat := Nat.max needed (2 * old).

(** Settings in memory: [To] is the first element of array 1 with capacity
    for all three, [Cc] is its second element, so the two share the array;
    [NotifyUsers] fills array 2. *)
Definition arrays : gmap positive (list string) :=
  {[ 1%positive := ["c@d.com"; "junk"; ""]; 2%positive := ["alice"] ]}.

Definition mail_mem : smtpConf_mem :=
  mk_smtpConf_mem "smtp.example.com" "25" "" "" "a@b.com"
    (mk_slice 1 0 1 3) (mk_slice 1 1 1 2) "" true.

Definition slack_mem : SlackConf_mem :=
  mk_SlackConf_mem "https://hooks.example.com/x" "#general" "" "vuls"
    (mk_slice 2 0 1 1) "" true.

Definition config_mem : Config_mem :=
  mk_Config_mem false false "en" mail_mem slack_mem zero_ServerInfo ∅
    "http://localhost:1323" (S754_zero false) false false "" "/var/json"
    "/var/cve.sqlite3" "" "" "" "" "" "".

Definition process : Process := mk_Process arrays config_mem [].

End Sample.

(** ** Vocabulary of the specification *)

(** The addresses of a list that come strictly before its first empty
    entry. *)
Fixpoint before_first_empty (emails : list string) : list string :=
  match emails with
  | [] => []
  | addr :: emails' =>
      if Go.streq addr "" then [] else addr :: before_first_empty emails'
  end.

(** The error of the email-format pass that names [addr]. *)
Definition invalid_email_error (addr : string) : error :=
  ErrorString ("Invalid email address. email: " +:+ addr).

(** The channel-prefix error that names [channel]. *)
Definition channel_prefix_error (channel : string) : error :=
  ErrorString ("channel's prefix must be '#', channel: " +:+ channel).

(** Recognises a channel-prefix error by its message. *)
Definition is_channel_prefix_error (e : error) : bool :=
  match e with
  | ErrorString msg => Go.HasPrefix msg "channel's prefix must be '#', channel: "
  | ValidatorErrors _ => false
  end.

(** The error of the path checks that names the JSON base directory, and the
    one that names the database path. *)
Definition json_base_dir_error (path : string) : error :=
  ErrorString
    ("JSON base directory must be a *Absolute* file path. jsonBaseDir: " +:+ path).

Definition cve_db_path_error (path : string) : error :=
  ErrorString
    ("SQLite3 DB(Cve Dictionary) path must be a *Absolute* file path. dbpath: "
       +:+ path).

(** [[e]] when the check [b] fails, nothing otherwise. *)
Definition violation_if (b : bool) (e : error) : list error :=
  if b then [e] else [].

(** The outcome of a struct pass as a sequence of zero or one error. *)
Definition struct_violation (r : bool * option Errors) : list error :=
  match r.2 with
  | Some e => [ValidatorErrors e]
  | None => []
  end.

(** The four missing-field checks of the mail block, in the order they are
    made. *)
Definition missing_mail_fields (c : smtpConf) : list error :=
  violation_if (Go.streq (SMTPAddr c) "") (ErrorString "smtpAddr must not be empty") ++
  violation_if (Go.streq (SMTPPort c) "") (ErrorString "smtpPort must not be empty") ++
  violation_if (bool_decide (To c = [])) (ErrorString "To required at least one address") ++
  violation_if (Go.streq (From c) "") (ErrorString "From required at least one address").

(** The two path checks of the settings, each zero or one error. *)
Definition json_base_dir_check (IsFilePath : string -> bool * Z) (c : Config)
  : list error :=
  violation_if (negb (Go.streq (JSONBaseDir c) "") && negb (IsFilePath (JSONBaseDir c)).1)
    (json_base_dir_error (JSONBaseDir c)).

Definition cve_db_path_check (IsFilePath : string -> bool * Z) (c : Config)
  : list error :=
  violation_if (negb (Go.streq (CveDBPath c) "") && negb (IsFilePath (CveDBPath c)).1)
    (cve_db_path_error (CveDBPath c)).

(** The channel check of the chat block: a missing channel, a channel that
    neither starts with [#] nor is the placeholder, or nothing. *)
Definition channel_check (c : SlackConf) : list error :=
  if Go.streq (Channel c) "" then [ErrorString "channel must not be empty"]
  else violation_if
         (negb (Go.HasPrefix (Channel c) "#") &&
          negb (Go.streq (Channel c) "${servername}"))
         (channel_prefix_error (Channel c)).

(** How many channel-prefix errors a sequence of errors holds. *)
Definition count_channel_prefix_errors (errs : list error) : nat :=
  length (List.filter is_channel_prefix_error errs).

(** ** Strings, formatting and slices *)

Lemma append_empty_r (s : string) : s +:+ "" = s.
Proof.
  induction s as [|ch s IH]; [reflexivity|].
  change (String ch (s +:+ "") = String ch s). now rewrite IH.
Qed.

Lemma len_zero (s : string) : (Go.len s =? 0) = Go.streq s "".
Proof. destruct s; reflexivity. Qed.

Lemma streq_true (s t : string) : Go.streq s t = true <-> s = t.
Proof. apply String.eqb_eq. Qed.

Lemma streq_false (s t : string) : Go.streq s t = false <-> s <> t.
Proof. apply String.eqb_neq. Qed.

Lemma streq_empty (s : string) : Go.streq s "" = true <-> s = "".
Proof. apply streq_true. Qed.

Lemma length_zero {A : Type} (l : list A) : (length l =? 0) = bool_decide (l = []).
Proof. destruct l; reflexivity. Qed.

(** [if 0 < len(more) { errs = append(errs, more...) }] is a plain append. *)
Lemma append_nonempty {A : Type} (errs more : list A) :
  (if 0 <? length more then errs ++ more else errs) = errs ++ more.
Proof. destruct more; cbn; [now rewrite app_nil_r | reflexivity]. Qed.

Lemma Errorf_email (addr : string) :
  Errorf "Invalid email address. email: %s" [addr] = invalid_email_error addr.
Proof. unfold Errorf, invalid_email_error. simpl. now rewrite append_empty_r. Qed.

Lemma Errorf_channel (channel : string) :
  Errorf "channel's prefix must be '#', channel: %s" [channel]
  = channel_prefix_error channel.
Proof. unfold Errorf, channel_prefix_error. simpl. now rewrite append_empty_r. Qed.

Lemma Errorf_json (path : string) :
  Errorf "JSON base directory must be a *Absolute* file path. jsonBaseDir: %s" [path]
  = json_base_dir_error path.
Proof. unfold Errorf, json_base_dir_error. simpl. now rewrite append_empty_r. Qed.

Lemma Errorf_cve (path : string) :
  Errorf "SQLite3 DB(Cve Dictionary) path must be a *Absolute* file path. dbpath: %s" [path]
  = cve_db_path_error path.
Proof. unfold Errorf, cve_db_path_error. simpl. now rewrite append_empty_r. Qed.

Lemma violation_if_In (b : bool) (e e' : error) :
  In e' (violation_if b e) <-> b = true /\ e' = e.
Proof. destruct b; cbn; intuition congruence. Qed.

Lemma before_first_empty_stop (pre post : list string) :
  Forall (fun a => a <> "") pre ->
  before_first_empty (pre ++ "" :: post) = pre.
Proof.
  induction 1 as [|a pre Ha _ IH]; cbn; [reflexivity|].
  apply streq_false in Ha. rewrite Ha. now rewrite IH.
Qed.

Lemma before_first_empty_all (l : list string) :
  Forall (fun a => a <> "") l -> before_first_empty l = l.
Proof.
  induction 1 as [|a l Ha _ IH]; cbn; [reflexivity|].
  apply streq_false in Ha. rewrite Ha. now rewrite IH.
Qed.

(** An email-format error is none of the fixed messages. *)
Lemma invalid_email_error_inv (addr msg : string) :
  invalid_email_error addr = ErrorString msg ->
  Go.HasPrefix msg "Invalid email address. email: " = true.
Proof.
  intros H. injection H as <-. clear. vm_compute. reflexivity.
Qed.

Lemma channel_prefix_error_inv (channel msg : string) :
  channel_prefix_error channel = ErrorString msg ->
  Go.HasPrefix msg "channel's prefix must be '#', channel: " = true.
Proof.
  intros H. injection H as <-. clear. vm_compute. reflexivity.
Qed.

Lemma append_inj_l (p s t : string) : p +:+ s = p +:+ t -> s = t.
Proof.
  induction p as [|ch p IH]; intros H; [exact H|].
  change (String ch (p +:+ s) = String ch (p +:+ t)) in H.
  injection H as H. auto.
Qed.

(** ** The mail block *)

Section MailProperties.

Context (IsEmail : string -> bool).
Context (ValidateStruct : forall A : Type, Struct A -> A -> bool * option Errors).

Lemma checkEmails_range_acc (emails : list string) (errs : list error) :
  checkEmails_range IsEmail emails errs
  = errs ++ checkEmails_range IsEmail emails [].
Proof.
  revert errs. induction emails as [|addr emails IH]; intros errs; simpl.
  - now rewrite app_nil_r.
  - destruct (Go.len addr =? 0); [now rewrite app_nil_r|].
    rewrite IH. rewrite (IH (if negb (IsEmail addr) then _ else _)).
    destruct (negb (IsEmail addr)); simpl; [|reflexivity].
    now rewrite <- app_assoc.
Qed.

Lemma checkEmails_spec (emails : list string) :
  checkEmails IsEmail emails
  = map invalid_email_error
      (List.filter (fun a => negb (IsEmail a)) (before_first_empty emails)).
Proof.
  unfold checkEmails. induction emails as [|addr emails IH]; simpl; [reflexivity|].
  rewrite len_zero. destruct (Go.streq addr ""); [reflexivity|].
  rewrite checkEmails_range_acc, IH. simpl.
  destruct (negb (IsEmail addr)); simpl; [|reflexivity].
  now rewrite Errorf_email.
Qed.

Lemma smtpConf_Validate_disabled (c : smtpConf) :
  smtp_UseThisTime c = false -> smtpConf_Validate IsEmail ValidateStruct c = [].
Proof. intros H. unfold smtpConf_Validate. now rewrite H. Qed.

Lemma smtpConf_Validate_enabled (c : smtpConf) :
  smtp_UseThisTime c = true ->
  smtpConf_Validate IsEmail ValidateStruct c
  = checkEmails IsEmail (From c :: To c ++ Cc c)
    ++ missing_mail_fields c
    ++ struct_violation (ValidateStruct smtpConf _ c).
Proof.
  intros H. unfold smtpConf_Validate, missing_mail_fields, struct_violation.
  rewrite H. cbv zeta. cbn [negb].
  rewrite append_nonempty, !len_zero, length_zero. cbn [app].
  generalize (checkEmails IsEmail (From c :: To c ++ Cc c)) as es; intros es.
  destruct (Go.streq (SMTPAddr c) ""), (Go.streq (SMTPPort c) ""),
    (bool_decide (To c = [])), (Go.streq (From c) ""),
    (ValidateStruct smtpConf Struct_smtpConf c).2;
    cbn [violation_if app]; rewrite <- ?app_assoc, ?app_nil_r; reflexivity.
Qed.

Lemma checkEmails_fixed_message (emails : list string) (msg : string) :
  Go.HasPrefix msg "Invalid email address. email: " = false ->
  ~ In (ErrorString msg) (checkEmails IsEmail emails).
Proof.
  intros Hmsg Hin. rewrite checkEmails_spec in Hin.
  apply in_map_iff in Hin as (a & Ha & _).
  apply invalid_email_error_inv in Ha. congruence.
Qed.

Lemma checkEmails_In (emails : list string) (a : string) :
  In (invalid_email_error a) (checkEmails IsEmail emails)
  <-> In a (before_first_empty emails) /\ IsEmail a = false.
Proof.
  rewrite checkEmails_spec, in_map_iff. split.
  - intros (b & Hb & Hin). injection Hb as Hb. apply append_inj_l in Hb. subst b.
    apply filter_In in Hin as [Hin Hne]. split; [exact Hin|].
    now destruct (IsEmail a).
  - intros [Hin Hne]. exists a. split; [reflexivity|].
    apply filter_In. split; [exact Hin|]. now rewrite Hne.
Qed.

End MailProperties.

(** ** The chat block *)

Section ChatProperties.

Context (ValidateStruct : forall A : Type, Struct A -> A -> bool * option Errors).

Lemma SlackConf_Validate_disabled (c : SlackConf) :
  Slack_UseThisTime c = false -> SlackConf_Validate ValidateStruct c = [].
Proof. intros H. unfold SlackConf_Validate. now rewrite H. Qed.

Lemma SlackConf_Validate_enabled (c : SlackConf) :
  Slack_UseThisTime c = true ->
  SlackConf_Validate ValidateStruct c
  = violation_if (Go.streq (HookURL c) "") (ErrorString "hookURL must not be empty")
    ++ channel_check c
    ++ violation_if (Go.streq (AuthUser c) "") (ErrorString "authUser must not be empty")
    ++ struct_violation (ValidateStruct SlackConf _ c).
Proof.
  intros H. unfold SlackConf_Validate, channel_check, struct_violation.
  rewrite H. cbv zeta. cbn [negb]. rewrite !len_zero, Errorf_channel.
  rewrite negb_orb.
  destruct (Go.streq (HookURL c) ""), (Go.streq (Channel c) ""),
    (negb (Go.HasPrefix (Channel c) "#") && negb (Go.streq (Channel c) "${servername}")),
    (Go.streq (AuthUser c) ""), (ValidateStruct SlackConf Struct_SlackConf c).2;
    reflexivity.
Qed.

Lemma count_channel_prefix_errors_app (xs ys : list error) :
  count_channel_prefix_errors (xs ++ ys)
  = count_channel_prefix_errors xs + count_channel_prefix_errors ys.
Proof.
  unfold count_channel_prefix_errors.
  induction xs as [|x xs IH]; simpl; [reflexivity|].
  destruct (is_channel_prefix_error x); simpl; now rewrite IH.
Qed.

Lemma is_channel_prefix_error_named (channel : string) :
  is_channel_prefix_error (channel_prefix_error channel) = true.
Proof. vm_compute. reflexivity. Qed.

Lemma count_channel_check (c : SlackConf) :
  count_channel_prefix_errors (channel_check c)
  = if negb (Go.streq (Channel c) "") && negb (Go.HasPrefix (Channel c) "#") &&
       negb (Go.streq (Channel c) "${servername}")
    then 1 else 0.
Proof.
  unfold channel_check, count_channel_prefix_errors.
  destruct (Go.streq (Channel c) ""); [reflexivity|].
  destruct (negb (Go.HasPrefix (Channel c) "#") &&
            negb (Go.streq (Channel c) "${servername}")) eqn:E;
    cbn [negb andb] in *; rewrite E; [|reflexivity].
  cbn [violation_if List.filter]. now rewrite is_channel_prefix_error_named.
Qed.

Lemma count_struct_violation (r : bool * option Errors) :
  count_channel_prefix_errors (struct_violation r) = 0.
Proof. unfold struct_violation. now destruct r.2. Qed.

Lemma count_violation_if_fixed (b : bool) (msg : string) :
  Go.HasPrefix msg "channel's prefix must be '#', channel: " = false ->
  count_channel_prefix_errors (violation_if b (ErrorString msg)) = 0.
Proof.
  intros H. destruct b; [|reflexivity].
  unfold count_channel_prefix_errors.
  cbn [violation_if List.filter is_channel_prefix_error]. now rewrite H.
Qed.

Lemma SlackConf_Validate_count (c : SlackConf) :
  Slack_UseThisTime c = true ->
  count_channel_prefix_errors (SlackConf_Validate ValidateStruct c)
  = if negb (Go.streq (Channel c) "") && negb (Go.HasPrefix (Channel c) "#") &&
       negb (Go.streq (Channel c) "${servername}")
    then 1 else 0.
Proof.
  intros H. rewrite SlackConf_Validate_enabled by exact H.
  rewrite !count_channel_prefix_errors_app, count_channel_check,
    count_struct_violation, !count_violation_if_fixed by reflexivity.
  now rewrite Nat.add_0_r.
Qed.

End ChatProperties.

(** ** The settings *)

Lemma for_range_log_Error (errs : list error) (w : World) :
  for_range errs log_Error w = (tt, mk_World (Conf w) (Logged w ++ errs)).
Proof.
  revert w. induction errs as [|e errs IH]; intros [conf logged]; simpl.
  - now rewrite app_nil_r.
  - unfold bind, log_Error. simpl. rewrite IH. simpl. now rewrite <- app_assoc.
Qed.

Section SettingsProperties.

Context (IsFilePath : string -> bool * Z).
Context (IsEmail : string -> bool).
Context (ValidateStruct : forall A : Type, Struct A -> A -> bool * option Errors).

Lemma Config_Validate_errs_spec (c : Config) :
  Config_Validate_errs IsFilePath IsEmail ValidateStruct c
  = json_base_dir_check IsFilePath c
    ++ cve_db_path_check IsFilePath c
    ++ struct_violation (ValidateStruct Config _ c)
    ++ smtpConf_Validate IsEmail ValidateStruct (Mail c)
    ++ SlackConf_Validate ValidateStruct (Slack c).
Proof.
  unfold Config_Validate_errs, json_base_dir_check, cve_db_path_check,
    struct_violation.
  cbv zeta. rewrite !append_nonempty, !len_zero, Errorf_json, Errorf_cve.
  generalize (smtpConf_Validate IsEmail ValidateStruct (Mail c)) as ms.
  generalize (SlackConf_Validate ValidateStruct (Slack c)) as ss.
  intros ss ms.
  destruct (Go.streq (JSONBaseDir c) ""), (IsFilePath (JSONBaseDir c)).1,
    (Go.streq (CveDBPath c) ""), (IsFilePath (CveDBPath c)).1,
    (ValidateStruct Config Struct_Config c).2;
    cbn [negb andb violation_if app]; rewrite <- ?app_assoc; reflexivity.
Qed.

Lemma Config_Validate_run (c : Config) (w : World) :
  Config_Validate IsFilePath IsEmail ValidateStruct c w
  = (length (Config_Validate_errs IsFilePath IsEmail ValidateStruct c) =? 0,
     mk_World (Conf w)
       (Logged w ++ Config_Validate_errs IsFilePath IsEmail ValidateStruct c)).
Proof.
  unfold Config_Validate, bind. cbv zeta. now rewrite for_range_log_Error.
Qed.

End SettingsProperties.

(** ** Properties of the validators *)

Section Validators.

Context (IsFilePath : string -> bool * Z).
Context (IsEmail : string -> bool).
Context (ValidateStruct : forall A : Type, Struct A -> A -> bool * option Errors).

Local Abbreviation mail_errors := (smtpConf_Validate IsEmail ValidateStruct).
Local Abbreviation chat_errors := (SlackConf_Validate ValidateStruct).
Local Abbreviation collected := (Config_Validate_errs IsFilePath IsEmail ValidateStruct).
Local Abbreviation Validate := (Config_Validate IsFilePath IsEmail ValidateStruct).

(** C1.  [Config.Validate] collects, in this order, the outcome of the
    JSONBaseDir path check, of the CveDBPath path check, of the struct pass,
    of the mail block and of the chat block: every violation any of the five
    finds is in the sequence, whatever the others found.  It hands each
    collected error to the logger and returns true exactly when the sequence
    is empty. *)
Theorem Config_Validate_collects_every_violation (c : Config) (w : World) :
  collected c
  = json_base_dir_check IsFilePath c
    ++ cve_db_path_check IsFilePath c
    ++ struct_violation (ValidateStruct Config _ c)
    ++ mail_errors (Mail c)
    ++ chat_errors (Slack c)
  /\ Logged (Validate c w).2 = Logged w ++ collected c
  /\ ((Validate c w).1 = true <-> collected c = []).
Proof using Type*.
  split; [apply Config_Validate_errs_spec|].
  rewrite Config_Validate_run. cbn [fst snd Logged].
  split; [reflexivity|].
  destruct (collected c); cbn; split; congruence.
Qed.

(** C2.  For an enabled mail block the email-format pass runs over
    [From :: To ++ Cc]: its errors are, in order, one error naming each
    address that is not a valid email among those strictly before the first
    empty entry, and nothing else; no address from the first empty entry on
    is checked.  The missing-field checks and the struct pass follow
    regardless. *)
Theorem smtpConf_Validate_email_pass (c : smtpConf) :
  smtp_UseThisTime c = true ->
  mail_errors c
  = map invalid_email_error
      (List.filter (fun a => negb (IsEmail a))
         (before_first_empty (From c :: To c ++ Cc c)))
    ++ missing_mail_fields c
    ++ struct_violation (ValidateStruct smtpConf _ c)
  /\ (forall a : string,
        In (invalid_email_error a) (mail_errors c)
        <-> In a (before_first_empty (From c :: To c ++ Cc c))
            /\ IsEmail a = false)
  /\ (forall pre post : list string,
        From c :: To c ++ Cc c = pre ++ "" :: post ->
        Forall (fun a => a <> "") pre ->
        mail_errors c
        = map invalid_email_error (List.filter (fun a => negb (IsEmail a)) pre)
          ++ missing_mail_fields c
          ++ struct_violation (ValidateStruct smtpConf _ c)).
Proof using Type*.
  intros H. rewrite smtpConf_Validate_enabled by exact H.
  split; [now rewrite checkEmails_spec|].
  split; [|intros pre post E Hpre;
           now rewrite checkEmails_spec, E, before_first_empty_stop].
  intros a. rewrite in_app_iff, checkEmails_In.
  split; [|intros Hin; left; exact Hin].
  intros [Hin | Hin]; [exact Hin | exfalso].
  apply in_app_iff in Hin as [Hin | Hin].
  - unfold missing_mail_fields in Hin.
    rewrite !in_app_iff, !violation_if_In in Hin.
    destruct Hin as [[_ E] | [[_ E] | [[_ E] | [_ E]]]];
      apply invalid_email_error_inv in E; discriminate E.
  - unfold struct_violation in Hin.
    destruct (ValidateStruct smtpConf Struct_smtpConf c).2; simpl in Hin;
      [destruct Hin as [E | []]; discriminate E | exact Hin].
Qed.

(** C3.  A mail block and a chat block whose [UseThisTime] is false yield no
    error, whatever their other fields hold. *)
Theorem disabled_block_yields_no_error (m : smtpConf) (s : SlackConf) :
  (smtp_UseThisTime m = false -> mail_errors m = [])
  /\ (Slack_UseThisTime s = false -> chat_errors s = []).
Proof using Type*.
  split; [apply smtpConf_Validate_disabled | apply SlackConf_Validate_disabled].
Qed.

(** C4.  For an enabled chat block: an empty [Channel] yields the error
    "channel must not be empty"; a non-empty [Channel] yields the
    channel-prefix error naming it exactly when it neither starts with [#]
    nor is the placeholder [${servername}]; and the block's errors hold one
    channel-prefix error in that case and none otherwise, so one for
    [general] and none for [#general] and for the placeholder. *)
Theorem SlackConf_Validate_channel (c : SlackConf) :
  Slack_UseThisTime c = true ->
  (Channel c = "" -> In (ErrorString "channel must not be empty") (chat_errors c))
  /\ (Channel c <> "" ->
      (In (channel_prefix_error (Channel c)) (chat_errors c)
       <-> Go.HasPrefix (Channel c) "#" = false /\ Channel c <> "${servername}"))
  /\ (Channel c <> "" ->
      count_channel_prefix_errors (chat_errors c)
      = if Go.HasPrefix (Channel c) "#" || Go.streq (Channel c) "${servername}"
        then 0 else 1)
  /\ (Channel c = "general" -> count_channel_prefix_errors (chat_errors c) = 1)
  /\ (Channel c = "#general" -> count_channel_prefix_errors (chat_errors c) = 0)
  /\ (Channel c = "${servername}" ->
      count_channel_prefix_errors (chat_errors c) = 0).
Proof using Type*.
  intros H.
  pose proof (SlackConf_Validate_count ValidateStruct c H) as Hcount.
  pose proof (SlackConf_Validate_enabled ValidateStruct c H) as Herrs.
  assert (Hnamed : In (channel_prefix_error (Channel c)) (chat_errors c) ->
                   count_channel_prefix_errors (chat_errors c) <> 0).
  { intros Hin Hzero. unfold count_channel_prefix_errors in Hzero.
    assert (Hf : In (channel_prefix_error (Channel c))
                   (List.filter is_channel_prefix_error (chat_errors c))).
    { apply filter_In. split; [exact Hin | apply is_channel_prefix_error_named]. }
    destruct (List.filter is_channel_prefix_error (chat_errors c));
      [destruct Hf | discriminate Hzero]. }
  split; [|split; [|split; [|split; [|split]]]].
  - intros E. rewrite Herrs, !in_app_iff. right; left.
    unfold channel_check. rewrite E. now left.
  - intros Hne. apply streq_false in Hne. split.
    + intros Hin. apply Hnamed in Hin. rewrite Hcount, Hne in Hin.
      cbn [negb andb] in Hin.
      destruct (Go.HasPrefix (Channel c) "#"); [now cbn in Hin|].
      destruct (Go.streq (Channel c) "${servername}") eqn:Es; [now cbn in Hin|].
      split; [reflexivity | now apply streq_false].
    + intros [Ep Es]. apply streq_false in Es.
      rewrite Herrs, !in_app_iff. right; left.
      unfold channel_check. rewrite Hne, Ep, Es. now left.
  - intros Hne. apply streq_false in Hne. rewrite Hcount, Hne. cbn [negb andb].
    now destruct (Go.HasPrefix (Channel c) "#"),
      (Go.streq (Channel c) "${servername}").
  - intros E. rewrite Hcount, E. reflexivity.
  - intros E. rewrite Hcount, E. reflexivity.
  - intros E. rewrite Hcount, E. reflexivity.
Qed.

Lemma mail_errors_fixed_message (c : smtpConf) (msg : string) :
  smtp_UseThisTime c = true ->
  Go.HasPrefix msg "Invalid email address. email: " = false ->
  In (ErrorString msg) (mail_errors c) <-> In (ErrorString msg) (missing_mail_fields c).
Proof using Type*.
  intros H Hmsg. rewrite smtpConf_Validate_enabled by exact H.
  rewrite !in_app_iff. split; [|intros Hin; right; left; exact Hin].
  intros [Hin | [Hin | Hin]]; [|exact Hin|].
  - now apply checkEmails_fixed_message in Hin.
  - unfold struct_violation in Hin.
    destruct (ValidateStruct smtpConf Struct_smtpConf c).2; simpl in Hin;
      [destruct Hin as [E | []]; discriminate E | destruct Hin].
Qed.

(** C6.  For an enabled mail block each of the four missing-field errors is
    among the block's errors exactly when its own field is empty: the
    address, the port, the [To] list, the sender.  Nothing else in the block
    matters to it. *)
Theorem smtpConf_Validate_missing_fields (c : smtpConf) :
  smtp_UseThisTime c = true ->
  (In (ErrorString "smtpAddr must not be empty") (mail_errors c)
   <-> SMTPAddr c = "")
  /\ (In (ErrorString "smtpPort must not be empty") (mail_errors c)
      <-> SMTPPort c = "")
  /\ (In (ErrorString "To required at least one address") (mail_errors c)
      <-> To c = [])
  /\ (In (ErrorString "From required at least one address") (mail_errors c)
      <-> From c = "").
Proof using Type*.
  intros H.
  repeat apply conj;
    rewrite mail_errors_fixed_message by (exact H || reflexivity);
    unfold missing_mail_fields;
    rewrite !in_app_iff, !violation_if_In, !streq_empty, bool_decide_eq_true;
    intuition (discriminate || congruence).
Qed.

(** C5.  A non-empty [JSONBaseDir] that [IsFilePath] rejects puts the error
    naming that value among the collected errors and makes [Validate] return
    false; so does a non-empty rejected [CveDBPath].  When that field is the
    only thing wrong (the other path is empty or accepted, the struct pass
    reports nothing, the mail and chat blocks report nothing), the collected
    errors are that one error. *)
Theorem Config_Validate_relative_path (c : Config) (w : World) :
  (JSONBaseDir c <> "" -> (IsFilePath (JSONBaseDir c)).1 = false ->
   In (json_base_dir_error (JSONBaseDir c)) (collected c)
   /\ (Validate c w).1 = false)
  /\ (CveDBPath c <> "" -> (IsFilePath (CveDBPath c)).1 = false ->
      In (cve_db_path_error (CveDBPath c)) (collected c)
      /\ (Validate c w).1 = false)
  /\ (JSONBaseDir c <> "" -> (IsFilePath (JSONBaseDir c)).1 = false ->
      CveDBPath c = "" \/ (IsFilePath (CveDBPath c)).1 = true ->
      (ValidateStruct Config _ c).2 = None ->
      mail_errors (Mail c) = [] -> chat_errors (Slack c) = [] ->
      collected c = [json_base_dir_error (JSONBaseDir c)])
  /\ (CveDBPath c <> "" -> (IsFilePath (CveDBPath c)).1 = false ->
      JSONBaseDir c = "" \/ (IsFilePath (JSONBaseDir c)).1 = true ->
      (ValidateStruct Config _ c).2 = None ->
      mail_errors (Mail c) = [] -> chat_errors (Slack c) = [] ->
      collected c = [cve_db_path_error (CveDBPath c)]).
Proof using Type*.
  rewrite Config_Validate_run. cbn [fst].
  rewrite Config_Validate_errs_spec.
  unfold json_base_dir_check, cve_db_path_check, struct_violation.
  split; [|split; [|split]].
  - intros Hne Hrej. apply streq_false in Hne. rewrite Hne, Hrej.
    cbn [negb andb violation_if app]. split; [now left | reflexivity].
  - intros Hne Hrej. apply streq_false in Hne. rewrite Hne, Hrej.
    cbn [negb andb violation_if].
    split.
    + rewrite !in_app_iff. right; left. now left.
    + now destruct (violation_if _ _).
  - intros Hne Hrej Hdb Hs Hm Hc. apply streq_false in Hne.
    rewrite Hne, Hrej, Hs, Hm, Hc. cbn [negb andb violation_if app].
    destruct Hdb as [E | E].
    + apply streq_true in E. now rewrite E.
    + rewrite E. now rewrite andb_false_r.
  - intros Hne Hrej Hjs Hs Hm Hc. apply streq_false in Hne.
    rewrite Hne, Hrej, Hs, Hm, Hc. cbn [negb andb violation_if app].
    destruct Hjs as [E | E].
    + apply streq_true in E. now rewrite E.
    + rewrite E. now rewrite andb_false_r.
Qed.

End Validators.

(** ** Server profiles *)

(** C7.  [IsContainer] holds exactly when the attached container's id is
    non-empty; [IsLocal] holds exactly when the host is [localhost] or
    [127.0.0.1], so not for the empty host. *)
Theorem IsContainer_IsLocal_spec (s : ServerInfo) :
  (IsContainer s = true <-> ContainerID (ServerInfo_Container s) <> "")
  /\ (IsLocal s = true <-> Host s = "localhost" \/ Host s = "127.0.0.1")
  /\ (Host s = "" -> IsLocal s = false).
Proof.
  unfold IsContainer, IsLocal. split; [|split].
  - destruct (ContainerID (ServerInfo_Container s)); cbn; split;
      congruence || discriminate || (intros _; reflexivity).
  - rewrite orb_true_iff, !streq_true. reflexivity.
  - intros ->. reflexivity.
Qed.

(** C9.  [SetContainer] stores the given descriptor in the profile's
    [Container] field, whatever the descriptor and the previous one were,
    and leaves the other eleven fields as they were; a second call
    overwrites the first. *)
Theorem SetContainer_frame (s : ServerInfo) (d d' : Container) :
  ServerInfo_Container (SetContainer s d) = d
  /\ SetContainer (SetContainer s d') d = SetContainer s d
  /\ ServerName (SetContainer s d) = ServerName s
  /\ ServerInfo_User (SetContainer s d) = ServerInfo_User s
  /\ Host (SetContainer s d) = Host s
  /\ Port (SetContainer s d) = Port s
  /\ KeyPath (SetContainer s d) = KeyPath s
  /\ KeyPassword (SetContainer s d) = KeyPassword s
  /\ CpeNames (SetContainer s d) = CpeNames s
  /\ Containers (SetContainer s d) = Containers s
  /\ Optional (SetContainer s d) = Optional s
  /\ LogMsgAnsiColor (SetContainer s d) = LogMsgAnsiColor s
  /\ Family (SetContainer s d) = Family s.
Proof. repeat apply conj; reflexivity. Qed.

(** ** The zero value *)

(** C10.  On the zero-value settings, with the struct pass reading the
    tags, [Validate] collects no error, logs nothing and returns true,
    whatever the format predicates are: the empty paths and URLs are
    skipped and both blocks are disabled. *)
Theorem Config_Validate_zero_value
  (IsFilePath : string -> bool * Z) (IsEmail : string -> bool)
  (TagMap : string -> string -> bool) (w : World) :
  Config_Validate_errs IsFilePath IsEmail (ValidateStruct_tags TagMap) zero_Config = []
  /\ Config_Validate IsFilePath IsEmail (ValidateStruct_tags TagMap) zero_Config w
     = (true, w)
  /\ json_base_dir_check IsFilePath zero_Config = []
  /\ cve_db_path_check IsFilePath zero_Config = []
  /\ ValidateStruct_tags TagMap Config _ zero_Config = (true, None)
  /\ smtpConf_Validate IsEmail (ValidateStruct_tags TagMap) (Mail zero_Config) = []
  /\ SlackConf_Validate (ValidateStruct_tags TagMap) (Slack zero_Config) = [].
Proof.
  repeat apply conj; reflexivity.
Qed.

(** ** The properties at concrete inputs *)

(** The mail block [Sample.mail_gap]: only [bad] is reported by the email
    pass, since [x@y] passes and the empty entry ends the pass. *)
Lemma smtpConf_Validate_email_pass_witness :
  smtp_UseThisTime Sample.mail_gap = true
  /\ (smtpConf_Validate Sample.IsEmail Sample.ValidateStruct Sample.mail_gap
      = map invalid_email_error ["bad"]
        ++ missing_mail_fields Sample.mail_gap
        ++ struct_violation (Sample.ValidateStruct smtpConf _ Sample.mail_gap)
      /\ (forall a : string,
            In (invalid_email_error a)
              (smtpConf_Validate Sample.IsEmail Sample.ValidateStruct Sample.mail_gap)
            <-> In a ["bad"; "x@y"] /\ Sample.IsEmail a = false))
  /\ smtpConf_Validate Sample.IsEmail Sample.ValidateStruct Sample.mail_gap
     = map invalid_email_error
         (List.filter (fun a => negb (Sample.IsEmail a)) ["bad"; "x@y"])
       ++ missing_mail_fields Sample.mail_gap
       ++ struct_violation (Sample.ValidateStruct smtpConf _ Sample.mail_gap).
Proof.
  split; [reflexivity|].
  destruct (smtpConf_Validate_email_pass Sample.IsEmail Sample.ValidateStruct
              Sample.mail_gap eq_refl) as (Hall & Hin & Hstop).
  split; [split; [exact Hall | exact Hin]|].
  apply (Hstop ["bad"; "x@y"] ["worse"; "zz"]); [reflexivity|].
  repeat constructor; discriminate.
Defined.

Lemma disabled_block_yields_no_error_witness :
  (smtp_UseThisTime Sample.mail_off = false
   /\ Slack_UseThisTime Sample.slack_off = false)
  /\ smtpConf_Validate Sample.IsEmail Sample.ValidateStruct Sample.mail_off = []
  /\ SlackConf_Validate Sample.ValidateStruct Sample.slack_off = [].
Proof.
  split; [split; reflexivity|].
  destruct (disabled_block_yields_no_error Sample.IsEmail Sample.ValidateStruct
              Sample.mail_off Sample.slack_off) as [Hm Hs].
  split; [apply Hm | apply Hs]; reflexivity.
Defined.

Lemma SlackConf_Validate_channel_witness :
  Slack_UseThisTime Sample.slack_general = true
  /\ Channel Sample.slack_general = "general"
  /\ In (channel_prefix_error "general")
       (SlackConf_Validate Sample.ValidateStruct Sample.slack_general)
  /\ count_channel_prefix_errors
       (SlackConf_Validate Sample.ValidateStruct Sample.slack_general) = 1
  /\ count_channel_prefix_errors
       (SlackConf_Validate Sample.ValidateStruct Sample.slack) = 0.
Proof.
  split; [reflexivity|]. split; [reflexivity|].
  destruct (SlackConf_Validate_channel Sample.ValidateStruct Sample.slack_general
              eq_refl) as (_ & Hnamed & _ & Hgeneral & _).
  destruct (SlackConf_Validate_channel Sample.ValidateStruct Sample.slack
              eq_refl) as (_ & _ & _ & _ & Hhash & _).
  split; [|split].
  - apply Hnamed; [discriminate|]. split; [reflexivity | discriminate].
  - apply Hgeneral. reflexivity.
  - apply Hhash. reflexivity.
Defined.

Lemma Config_Validate_relative_path_witness :
  (JSONBaseDir Sample.config_relative_json = "relative/path"
   /\ (Sample.IsFilePath "relative/path").1 = false
   /\ CveDBPath Sample.config_relative_db = "cve.sqlite3"
   /\ (Sample.IsFilePath "cve.sqlite3").1 = false)
  /\ Config_Validate_errs Sample.IsFilePath Sample.IsEmail Sample.ValidateStruct
       Sample.config_relative_json
     = [json_base_dir_error "relative/path"]
  /\ (Config_Validate Sample.IsFilePath Sample.IsEmail Sample.ValidateStruct
        Sample.config_relative_json (mk_World zero_Config [])).1 = false
  /\ Config_Validate_errs Sample.IsFilePath Sample.IsEmail Sample.ValidateStruct
       Sample.config_relative_db
     = [cve_db_path_error "cve.sqlite3"]
  /\ (Config_Validate Sample.IsFilePath Sample.IsEmail Sample.ValidateStruct
        Sample.config_relative_db (mk_World zero_Config [])).1 = false.
Proof.
  split; [repeat split; reflexivity|].
  destruct (Config_Validate_relative_path Sample.IsFilePath Sample.IsEmail
              Sample.ValidateStruct Sample.config_relative_json
              (mk_World zero_Config [])) as (Hj & _ & Hjonly & _).
  destruct (Config_Validate_relative_path Sample.IsFilePath Sample.IsEmail
              Sample.ValidateStruct Sample.config_relative_db
              (mk_World zero_Config [])) as (_ & Hd & _ & Hdonly).
  split; [|split; [|split]].
  - apply Hjonly; try reflexivity; [discriminate | right; reflexivity].
  - apply Hj; [discriminate | reflexivity].
  - apply Hdonly; try reflexivity; [discriminate | right; reflexivity].
  - apply Hd; [discriminate | reflexivity].
Defined.

Lemma smtpConf_Validate_missing_fields_witness :
  smtp_UseThisTime Sample.mail_gap = true
  /\ (In (ErrorString "smtpAddr must not be empty")
        (smtpConf_Validate Sample.IsEmail Sample.ValidateStruct Sample.mail_gap)
      <-> SMTPAddr Sample.mail_gap = "")
  /\ (In (ErrorString "smtpPort must not be empty")
        (smtpConf_Validate Sample.IsEmail Sample.ValidateStruct Sample.mail_gap)
      <-> SMTPPort Sample.mail_gap = "")
  /\ (In (ErrorString "To required at least one address")
        (smtpConf_Validate Sample.IsEmail Sample.ValidateStruct Sample.mail_gap)
      <-> To Sample.mail_gap = [])
  /\ (In (ErrorString "From required at least one address")
        (smtpConf_Validate Sample.IsEmail Sample.ValidateStruct Sample.mail_gap)
      <-> From Sample.mail_gap = "").
Proof.
  split; [reflexivity|].
  exact (smtpConf_Validate_missing_fields Sample.IsEmail Sample.ValidateStruct
           Sample.mail_gap eq_refl).
Defined.

Lemma IsContainer_IsLocal_spec_witness :
  Host zero_ServerInfo = ""
  /\ IsLocal zero_ServerInfo = false
  /\ IsLocal Sample.server = true
  /\ IsContainer Sample.server = true.
Proof.
  split; [reflexivity|].
  destruct (IsContainer_IsLocal_spec zero_ServerInfo) as (_ & _ & Hempty).
  destruct (IsContainer_IsLocal_spec Sample.server) as (Hc & Hl & _).
  split; [apply Hempty; reflexivity|].
  split; [apply Hl; left; reflexivity | apply Hc; discriminate].
Defined.

(** ** Runs of the model *)

Example Validate_sample_config :
  Config_Validate Sample.IsFilePath Sample.IsEmail Sample.ValidateStruct
    Sample.config (mk_World Sample.config [])
  = (true, mk_World Sample.config []).
Proof. reflexivity. Qed.

Example Validate_mail_gap :
  smtpConf_Validate Sample.IsEmail Sample.ValidateStruct Sample.mail_gap
  = [ ErrorString "Invalid email address. email: bad";
      ErrorString "smtpAddr must not be empty";
      ValidatorErrors [mk_valid_Error "SMTPPort" "99x does not validate as port"] ].
Proof. reflexivity. Qed.

Example Validate_slack_general :
  SlackConf_Validate Sample.ValidateStruct Sample.slack_general
  = [ ErrorString "channel's prefix must be '#', channel: general" ].
Proof. reflexivity. Qed.

Example Validate_relative_json_logs :
  Config_Validate Sample.IsFilePath Sample.IsEmail Sample.ValidateStruct
    Sample.config_relative_json (mk_World zero_Config [])
  = (false,
     mk_World zero_Config
       [ ErrorString
           "JSON base directory must be a *Absolute* file path. jsonBaseDir: relative/path" ]).
Proof. reflexivity. Qed.

Example Sprintf_missing_operand :
  Go.Sprintf "dbpath: %s" [] = "dbpath: %!s(MISSING)".
Proof. reflexivity. Qed.

(** ** Further properties of the chat block *)

Lemma violation_if_nil (b : bool) (e : error) :
  violation_if b e = [] <-> b = false.
Proof. destruct b; cbn; split; congruence. Qed.

Lemma violation_if_length (b : bool) (e : error) : length (violation_if b e) <= 1.
Proof. destruct b; cbn; lia. Qed.

Lemma struct_violation_nil (r : bool * option Errors) :
  struct_violation r = [] <-> r.2 = None.
Proof. unfold struct_violation. destruct r.2; split; congruence. Qed.

Lemma struct_violation_length (r : bool * option Errors) :
  length (struct_violation r) <= 1.
Proof. unfold struct_violation. destruct r.2; cbn; lia. Qed.

Lemma struct_violation_In (r : bool * option Errors) (msg : string) :
  ~ In (ErrorString msg) (struct_violation r).
Proof.
  unfold struct_violation. destruct r.2; cbn; [|tauto].
  intros [E | []]. discriminate E.
Qed.

Lemma channel_check_In (c : SlackConf) (e : error) :
  In e (channel_check c) ->
  e = ErrorString "channel must not be empty" \/ e = channel_prefix_error (Channel c).
Proof.
  unfold channel_check. destruct (Go.streq (Channel c) "").
  - intros [E | []]. now left.
  - intros Hin. apply violation_if_In in Hin as [_ E]. now right.
Qed.

Lemma channel_check_fixed_message (c : SlackConf) (msg : string) :
  msg <> "channel must not be empty" ->
  Go.HasPrefix msg "channel's prefix must be '#', channel: " = false ->
  ~ In (ErrorString msg) (channel_check c).
Proof.
  intros Hne Hpre Hin. apply channel_check_In in Hin as [E | E].
  - congruence.
  - symmetry in E. apply channel_prefix_error_inv in E. congruence.
Qed.

Lemma channel_check_nil (c : SlackConf) :
  channel_check c = []
  <-> Go.HasPrefix (Channel c) "#" = true \/ Channel c = "${servername}".
Proof.
  unfold channel_check. destruct (Go.streq (Channel c) "") eqn:E.
  - apply streq_true in E. rewrite E. cbn. split; [discriminate|].
    intros [H | H]; discriminate H.
  - rewrite violation_if_nil, andb_false_iff, !negb_false_iff, streq_true.
    reflexivity.
Qed.

Lemma channel_check_length (c : SlackConf) : length (channel_check c) <= 1.
Proof.
  unfold channel_check. destruct (Go.streq (Channel c) ""); [cbn; lia|].
  apply violation_if_length.
Qed.

Section ChatBlock.

Context (ValidateStruct : forall A : Type, Struct A -> A -> bool * option Errors).

Local Abbreviation chat_errors := (SlackConf_Validate ValidateStruct).

(** X1.  For an enabled chat block the error "hookURL must not be empty" is
    reported exactly when [HookURL] is empty, and "authUser must not be
    empty" exactly when [AuthUser] is empty. *)
Theorem SlackConf_Validate_missing_fields (c : SlackConf) :
  Slack_UseThisTime c = true ->
  (In (ErrorString "hookURL must not be empty") (chat_errors c) <-> HookURL c = "")
  /\ (In (ErrorString "authUser must not be empty") (chat_errors c)
      <-> AuthUser c = "").
Proof using Type*.
  intros H. rewrite SlackConf_Validate_enabled by exact H.
  split; rewrite !in_app_iff, !violation_if_In, !streq_empty; split.
  - intros [[E _] | [Hin | [[_ E] | Hin]]]; [exact E | exfalso ..].
    + revert Hin. now apply channel_check_fixed_message.
    + discriminate E.
    + revert Hin. apply struct_violation_In.
  - intros E. left. now split.
  - intros [[_ E] | [Hin | [[E _] | Hin]]]; [exfalso | exfalso | exact E | exfalso].
    + discriminate E.
    + revert Hin. now apply channel_check_fixed_message.
    + revert Hin. apply struct_violation_In.
  - intros E. right; right; left. now split.
Qed.

(** X2.  An enabled chat block yields no error exactly when the hook URL is
    non-empty, the channel starts with [#] or is the placeholder
    [${servername}], the posting user is non-empty, and the struct pass
    returns a nil error. *)
Theorem SlackConf_Validate_passes_iff (c : SlackConf) :
  Slack_UseThisTime c = true ->
  chat_errors c = []
  <-> HookURL c <> ""
      /\ (Go.HasPrefix (Channel c) "#" = true \/ Channel c = "${servername}")
      /\ AuthUser c <> ""
      /\ (ValidateStruct SlackConf _ c).2 = None.
Proof using Type*.
  intros H. rewrite SlackConf_Validate_enabled by exact H.
  rewrite !app_nil, !violation_if_nil, !streq_false, channel_check_nil,
    struct_violation_nil.
  reflexivity.
Qed.

(** X3.  A chat block never yields more than four errors, and when it
    reports the empty channel it reports no channel-prefix error. *)
Theorem SlackConf_Validate_at_most_four (c : SlackConf) :
  length (chat_errors c) <= 4
  /\ (In (ErrorString "channel must not be empty") (chat_errors c) ->
      count_channel_prefix_errors (chat_errors c) = 0).
Proof using Type*.
  destruct (Slack_UseThisTime c) eqn:H.
  - split.
    + rewrite SlackConf_Validate_enabled by exact H. rewrite !length_app.
      pose proof (violation_if_length (Go.streq (HookURL c) "")
                    (ErrorString "hookURL must not be empty")).
      pose proof (violation_if_length (Go.streq (AuthUser c) "")
                    (ErrorString "authUser must not be empty")).
      pose proof (channel_check_length c).
      pose proof (struct_violation_length (ValidateStruct SlackConf _ c)).
      lia.
    + intros Hin. rewrite SlackConf_Validate_count by exact H.
      rewrite SlackConf_Validate_enabled in Hin by exact H.
      rewrite !in_app_iff, !violation_if_In in Hin.
      destruct Hin as [[_ E] | [Hin | [[_ E] | Hin]]];
        [discriminate E | | discriminate E | now apply struct_violation_In in Hin].
      unfold channel_check in Hin.
      destruct (Go.streq (Channel c) ""); [reflexivity|].
      apply violation_if_In in Hin as [_ E]. symmetry in E.
      apply channel_prefix_error_inv in E. discriminate E.
  - rewrite SlackConf_Validate_disabled by exact H. split; [cbn; lia|].
    intros [].
Qed.

End ChatBlock.

(** ** Further properties of the mail block *)

Lemma before_first_empty_app_all (l1 l2 : list string) :
  Forall (fun a => a <> "") l1 ->
  before_first_empty (l1 ++ l2) = l1 ++ before_first_empty l2.
Proof.
  induction 1 as [|a l1 Ha _ IH]; cbn; [reflexivity|].
  apply streq_false in Ha. rewrite Ha. now rewrite IH.
Qed.

Lemma before_first_empty_app_stop (l1 l2 : list string) :
  In "" l1 -> before_first_empty (l1 ++ l2) = before_first_empty l1.
Proof.
  induction l1 as [|a l1 IH]; cbn; [intros []|].
  destruct (Go.streq a "") eqn:E; [reflexivity|].
  intros [Ha | Hin]; [apply streq_false in E; congruence|].
  now rewrite IH.
Qed.

Lemma before_first_empty_length (l : list string) :
  length (before_first_empty l) <= length l.
Proof.
  induction l as [|a l IH]; cbn; [lia|].
  destruct (Go.streq a ""); cbn; lia.
Qed.

Lemma filter_nil_Forall {A : Type} (f : A -> bool) (l : list A) :
  List.filter f l = [] <-> Forall (fun a => f a = false) l.
Proof.
  induction l as [|a l IH]; cbn; [split; [constructor | reflexivity]|].
  destruct (f a) eqn:E; split.
  - discriminate.
  - intros Hall. inversion Hall; congruence.
  - intros Hnil. constructor; [exact E | now apply IH].
  - intros Hall. inversion Hall. now apply IH.
Qed.

Lemma missing_mail_fields_nil (c : smtpConf) :
  missing_mail_fields c = []
  <-> SMTPAddr c <> "" /\ SMTPPort c <> "" /\ To c <> [] /\ From c <> "".
Proof.
  unfold missing_mail_fields.
  rewrite !app_nil, !violation_if_nil, !streq_false, bool_decide_eq_false.
  reflexivity.
Qed.

Lemma missing_mail_fields_not_email (c : smtpConf) (a : string) :
  ~ In (invalid_email_error a) (missing_mail_fields c).
Proof.
  unfold missing_mail_fields. rewrite !in_app_iff, !violation_if_In.
  intros [[_ E] | [[_ E] | [[_ E] | [_ E]]]];
    apply invalid_email_error_inv in E; discriminate E.
Qed.

Section MailBlock.

Context (IsEmail : string -> bool).
Context (ValidateStruct : forall A : Type, Struct A -> A -> bool * option Errors).

Local Abbreviation mail_errors := (smtpConf_Validate IsEmail ValidateStruct).

Lemma checkEmails_nil (emails : list string) :
  checkEmails IsEmail emails = []
  <-> Forall (fun a => IsEmail a = true) (before_first_empty emails).
Proof using Type*.
  rewrite checkEmails_spec. split.
  - intros Hnil. apply map_eq_nil in Hnil. apply filter_nil_Forall in Hnil.
    eapply Forall_impl; [exact Hnil|].
    intros a Ha. now apply negb_false_iff.
  - intros Hall.
    assert (Hnil : List.filter (fun a => negb (IsEmail a))
                     (before_first_empty emails) = []).
    { apply filter_nil_Forall. eapply Forall_impl; [exact Hall|].
      intros a Ha. cbn. now rewrite Ha. }
    now rewrite Hnil.
Qed.

Lemma checkEmails_length (emails : list string) :
  length (checkEmails IsEmail emails) <= length emails.
Proof using Type*.
  rewrite checkEmails_spec, length_map.
  etransitivity; [apply List.filter_length_le | apply before_first_empty_length].
Qed.

Lemma mail_errors_email_In (c : smtpConf) (a : string) :
  smtp_UseThisTime c = true ->
  In (invalid_email_error a) (mail_errors c)
  <-> In (invalid_email_error a) (checkEmails IsEmail (From c :: To c ++ Cc c)).
Proof using Type*.
  intros H. rewrite smtpConf_Validate_enabled by exact H.
  rewrite !in_app_iff. split; [|intros Hin; left; exact Hin].
  intros [Hin | [Hin | Hin]]; [exact Hin | exfalso ..].
  - revert Hin. apply missing_mail_fields_not_email.
  - revert Hin. apply struct_violation_In.
Qed.

(** X4.  An enabled mail block yields no error exactly when every address
    before the first empty entry of [From :: To ++ Cc] is a valid email, the
    SMTP address, the SMTP port and the sender are non-empty, [To] has at
    least one entry, and the struct pass returns a nil error. *)
Theorem smtpConf_Validate_passes_iff (c : smtpConf) :
  smtp_UseThisTime c = true ->
  mail_errors c = []
  <-> Forall (fun a => IsEmail a = true)
        (before_first_empty (From c :: To c ++ Cc c))
      /\ SMTPAddr c <> "" /\ SMTPPort c <> "" /\ To c <> [] /\ From c <> ""
      /\ (ValidateStruct smtpConf _ c).2 = None.
Proof using Type*.
  intros H. rewrite smtpConf_Validate_enabled by exact H.
  rewrite !app_nil, checkEmails_nil, missing_mail_fields_nil, struct_violation_nil.
  tauto.
Qed.

(** X5.  [checkEmails] over two lists one after the other: when the first
    holds no empty entry the errors are those of the first followed by those
    of the second; when the first holds an empty entry the second is
    ignored. *)
Theorem checkEmails_app (l1 l2 : list string) :
  (Forall (fun a => a <> "") l1 ->
   checkEmails IsEmail (l1 ++ l2) = checkEmails IsEmail l1 ++ checkEmails IsEmail l2)
  /\ (In "" l1 -> checkEmails IsEmail (l1 ++ l2) = checkEmails IsEmail l1).
Proof using Type*.
  rewrite !checkEmails_spec. split.
  - intros Hall. rewrite before_first_empty_app_all by exact Hall.
    rewrite (before_first_empty_all l1) by exact Hall.
    now rewrite List.filter_app, map_app.
  - intros Hin. now rewrite before_first_empty_app_stop.
Qed.

(** X6.  For an enabled mail block: with an empty sender no email-format
    error is reported, whatever [To] and [Cc] hold, and the error
    "From required at least one address" is; a non-empty sender that is not
    a valid email is always reported by name. *)
Theorem smtpConf_Validate_sender (c : smtpConf) :
  smtp_UseThisTime c = true ->
  (From c = "" ->
   (forall a : string, ~ In (invalid_email_error a) (mail_errors c))
   /\ In (ErrorString "From required at least one address") (mail_errors c))
  /\ (From c <> "" -> IsEmail (From c) = false ->
      In (invalid_email_error (From c)) (mail_errors c)).
Proof using Type*.
  intros H. split.
  - intros E. split.
    + intros a. rewrite mail_errors_email_In, checkEmails_In by exact H.
      rewrite E. cbn. intros [[] _].
    + rewrite smtpConf_Validate_enabled by exact H.
      rewrite !in_app_iff. right; left. unfold missing_mail_fields.
      rewrite !in_app_iff, !violation_if_In. right; right; right.
      split; [now apply streq_true | reflexivity].
  - intros Hne Hbad. rewrite mail_errors_email_In, checkEmails_In by exact H.
    split; [|exact Hbad]. cbn. apply streq_false in Hne. rewrite Hne. now left.
Qed.

(** X7.  An enabled mail block whose first [To] entry is empty passes when
    the sender is a valid non-empty address, the SMTP address and port are
    non-empty and the struct pass returns a nil error: the blank entry
    satisfies the [To] check and no later recipient or copy address is
    looked at. *)
Theorem smtpConf_Validate_blank_recipient (c : smtpConf) (rest : list string) :
  smtp_UseThisTime c = true ->
  To c = "" :: rest ->
  From c <> "" -> IsEmail (From c) = true ->
  SMTPAddr c <> "" -> SMTPPort c <> "" ->
  (ValidateStruct smtpConf _ c).2 = None ->
  mail_errors c = [].
Proof using Type*.
  intros H HTo HFrom Hvalid Haddr Hport Hstruct.
  rewrite smtpConf_Validate_enabled by exact H.
  rewrite !app_nil, checkEmails_nil, missing_mail_fields_nil, struct_violation_nil.
  rewrite HTo. cbn. apply streq_false in HFrom. rewrite HFrom.
  apply streq_false in HFrom.
  repeat apply conj; try assumption; [|discriminate].
  constructor; [exact Hvalid | constructor].
Qed.

(** X8.  A mail block yields at most [len(To) + len(Cc) + 5] errors. *)
Theorem smtpConf_Validate_error_bound (c : smtpConf) :
  length (mail_errors c) <= length (To c) + length (Cc c) + 5.
Proof using Type*.
  destruct (smtp_UseThisTime c) eqn:H;
    [|rewrite smtpConf_Validate_disabled by exact H; cbn; lia].
  rewrite smtpConf_Validate_enabled by exact H. rewrite !length_app.
  pose proof (struct_violation_length (ValidateStruct smtpConf _ c)) as Hs.
  pose proof (checkEmails_length (From c :: To c ++ Cc c)) as He.
  cbn [length] in He. rewrite length_app in He.
  unfold missing_mail_fields. rewrite !length_app.
  pose proof (violation_if_length (Go.streq (SMTPAddr c) "")
                (ErrorString "smtpAddr must not be empty")).
  pose proof (violation_if_length (Go.streq (SMTPPort c) "")
                (ErrorString "smtpPort must not be empty")).
  pose proof (violation_if_length (bool_decide (To c = []))
                (ErrorString "To required at least one address")).
  destruct (Go.streq (From c) "") eqn:E.
  - assert (Hnil : checkEmails IsEmail (From c :: To c ++ Cc c) = []).
    { rewrite checkEmails_spec. cbn. now rewrite E. }
    rewrite Hnil. cbn [length violation_if]. lia.
  - cbn [length violation_if]. lia.
Qed.

End MailBlock.

(** ** Further properties of the settings *)

Section Settings.

Context (IsFilePath : string -> bool * Z).
Context (IsEmail : string -> bool).
Context (ValidateStruct : forall A : Type, Struct A -> A -> bool * option Errors).

Local Abbreviation mail_errors := (smtpConf_Validate IsEmail ValidateStruct).
Local Abbreviation chat_errors := (SlackConf_Validate ValidateStruct).
Local Abbreviation collected := (Config_Validate_errs IsFilePath IsEmail ValidateStruct).
Local Abbreviation Validate := (Config_Validate IsFilePath IsEmail ValidateStruct).

Lemma path_check_nil (path : string) (e : error) :
  violation_if (negb (Go.streq path "") && negb (IsFilePath path).1) e = []
  <-> path = "" \/ (IsFilePath path).1 = true.
Proof using Type*.
  rewrite violation_if_nil, andb_false_iff, !negb_false_iff, streq_true.
  reflexivity.
Qed.

(** X9.  [Validate] returns true exactly when [JSONBaseDir] is empty or
    accepted by [IsFilePath], [CveDBPath] is empty or accepted, the struct
    pass over the settings returns a nil error, and the mail block and the
    chat block yield no error. *)
Theorem Config_Validate_true_iff (c : Config) (w : World) :
  (Validate c w).1 = true
  <-> (JSONBaseDir c = "" \/ (IsFilePath (JSONBaseDir c)).1 = true)
      /\ (CveDBPath c = "" \/ (IsFilePath (CveDBPath c)).1 = true)
      /\ (ValidateStruct Config _ c).2 = None
      /\ mail_errors (Mail c) = []
      /\ chat_errors (Slack c) = [].
Proof using Type*.
  rewrite Config_Validate_run. cbn [fst].
  rewrite Nat.eqb_eq, length_zero_iff_nil, Config_Validate_errs_spec.
  unfold json_base_dir_check, cve_db_path_check.
  rewrite !app_nil, !path_check_nil, struct_violation_nil.
  reflexivity.
Qed.

(** X10.  [Validate] returns true exactly when it leaves the process state
    as it found it, that is, when it logs nothing. *)
Theorem Config_Validate_true_iff_silent (c : Config) (w : World) :
  (Validate c w).1 = true <-> (Validate c w).2 = w.
Proof using Type*.
  rewrite Config_Validate_run. cbn [fst snd].
  rewrite Nat.eqb_eq, length_zero_iff_nil.
  destruct w as [conf logged]. cbn [Conf Logged]. split.
  - intros ->. now rewrite app_nil_r.
  - intros E. injection E as E.
    apply (app_inv_head logged). now rewrite app_nil_r.
Qed.

(** X11.  Apart from what the struct pass returns, [Validate] looks only at
    the two paths and the two blocks: settings that agree on [JSONBaseDir],
    [CveDBPath], [Mail] and [Slack] and get the same error from the struct
    pass collect the same errors and get the same result, whatever their
    server profiles and other fields are. *)
Theorem Config_Validate_frame (c c' : Config) (w : World) :
  JSONBaseDir c = JSONBaseDir c' ->
  CveDBPath c = CveDBPath c' ->
  Mail c = Mail c' ->
  Slack c = Slack c' ->
  (ValidateStruct Config _ c).2 = (ValidateStruct Config _ c').2 ->
  collected c = collected c' /\ (Validate c w).1 = (Validate c' w).1.
Proof using Type*.
  intros Hj Hd Hm Hs Hv. rewrite !Config_Validate_run. cbn [fst].
  rewrite !Config_Validate_errs_spec.
  unfold json_base_dir_check, cve_db_path_check, struct_violation.
  rewrite Hj, Hd, Hm, Hs, Hv. split; reflexivity.
Qed.

End Settings.

(** ** Further properties of server profiles *)

(** X12.  After [SetContainer(d)] the profile is a container target exactly
    when [d] has a non-empty id, so attaching the zero descriptor detaches
    it; whether the profile is local is unchanged; and attaching the
    descriptor the profile already holds changes nothing. *)
Theorem SetContainer_then_predicates (s : ServerInfo) (d : Container) :
  (IsContainer (SetContainer s d) = true <-> ContainerID d <> "")
  /\ IsContainer (SetContainer s zero_Container) = false
  /\ IsLocal (SetContainer s d) = IsLocal s
  /\ SetContainer s (ServerInfo_Container s) = s.
Proof.
  split; [|split; [|split]]; [| reflexivity | reflexivity | now destruct s].
  unfold IsContainer. cbn. destruct (ContainerID d); cbn; split;
    congruence || discriminate || (intros _; reflexivity).
Qed.

(** ** The further properties at concrete inputs *)

Lemma SlackConf_Validate_missing_fields_witness :
  Slack_UseThisTime Sample.slack_blank = true
  /\ (In (ErrorString "hookURL must not be empty")
        (SlackConf_Validate Sample.ValidateStruct Sample.slack_blank)
      <-> HookURL Sample.slack_blank = "")
  /\ (In (ErrorString "authUser must not be empty")
        (SlackConf_Validate Sample.ValidateStruct Sample.slack_blank)
      <-> AuthUser Sample.slack_blank = "").
Proof.
  split; [reflexivity|].
  exact (SlackConf_Validate_missing_fields Sample.ValidateStruct
           Sample.slack_blank eq_refl).
Defined.

Lemma SlackConf_Validate_passes_iff_witness :
  Slack_UseThisTime Sample.slack = true
  /\ (SlackConf_Validate Sample.ValidateStruct Sample.slack = []
      <-> HookURL Sample.slack <> ""
          /\ (Go.HasPrefix (Channel Sample.slack) "#" = true
              \/ Channel Sample.slack = "${servername}")
          /\ AuthUser Sample.slack <> ""
          /\ (Sample.ValidateStruct SlackConf _ Sample.slack).2 = None).
Proof.
  split; [reflexivity|].
  exact (SlackConf_Validate_passes_iff Sample.ValidateStruct Sample.slack eq_refl).
Defined.

Lemma SlackConf_Validate_at_most_four_witness :
  In (ErrorString "channel must not be empty")
    (SlackConf_Validate Sample.ValidateStruct Sample.slack_blank)
  /\ length (SlackConf_Validate Sample.ValidateStruct Sample.slack_blank) <= 4
  /\ count_channel_prefix_errors
       (SlackConf_Validate Sample.ValidateStruct Sample.slack_blank) = 0.
Proof.
  assert (Hin : In (ErrorString "channel must not be empty")
                  (SlackConf_Validate Sample.ValidateStruct Sample.slack_blank)).
  { right; left; reflexivity. }
  split; [exact Hin|].
  destruct (SlackConf_Validate_at_most_four Sample.ValidateStruct
              Sample.slack_blank) as [Hlen Hnone].
  split; [exact Hlen | exact (Hnone Hin)].
Defined.

Lemma smtpConf_Validate_passes_iff_witness :
  smtp_UseThisTime Sample.mail = true
  /\ (smtpConf_Validate Sample.IsEmail Sample.ValidateStruct Sample.mail = []
      <-> Forall (fun a => Sample.IsEmail a = true) ["a@b.com"; "c@d.com"]
          /\ SMTPAddr Sample.mail <> "" /\ SMTPPort Sample.mail <> ""
          /\ To Sample.mail <> [] /\ From Sample.mail <> ""
          /\ (Sample.ValidateStruct smtpConf _ Sample.mail).2 = None).
Proof.
  split; [reflexivity|].
  exact (smtpConf_Validate_passes_iff Sample.IsEmail Sample.ValidateStruct
           Sample.mail eq_refl).
Defined.

Lemma checkEmails_app_witness :
  (Forall (fun a => a <> "") ["bad"; "x@y"] /\ In "" ["x@y"; ""; "worse"])
  /\ checkEmails Sample.IsEmail (["bad"; "x@y"] ++ ["worse"])
     = checkEmails Sample.IsEmail ["bad"; "x@y"]
       ++ checkEmails Sample.IsEmail ["worse"]
  /\ checkEmails Sample.IsEmail (["x@y"; ""; "worse"] ++ ["zz"])
     = checkEmails Sample.IsEmail ["x@y"; ""; "worse"].
Proof.
  assert (Hall : Forall (fun a : string => a <> "") ["bad"; "x@y"]).
  { repeat constructor; discriminate. }
  assert (Hin : In "" ["x@y"; ""; "worse"]).
  { right; left; reflexivity. }
  split; [split; [exact Hall | exact Hin]|].
  split.
  - exact (proj1 (checkEmails_app Sample.IsEmail ["bad"; "x@y"] ["worse"]) Hall).
  - exact (proj2 (checkEmails_app Sample.IsEmail ["x@y"; ""; "worse"] ["zz"]) Hin).
Defined.

Lemma smtpConf_Validate_sender_witness :
  (smtp_UseThisTime Sample.mail_no_sender = true
   /\ From Sample.mail_no_sender = ""
   /\ smtp_UseThisTime Sample.mail_gap = true
   /\ From Sample.mail_gap = "bad"
   /\ Sample.IsEmail "bad" = false)
  /\ (forall a : string,
        ~ In (invalid_email_error a)
            (smtpConf_Validate Sample.IsEmail Sample.ValidateStruct
               Sample.mail_no_sender))
  /\ In (ErrorString "From required at least one address")
       (smtpConf_Validate Sample.IsEmail Sample.ValidateStruct
          Sample.mail_no_sender)
  /\ In (invalid_email_error "bad")
       (smtpConf_Validate Sample.IsEmail Sample.ValidateStruct Sample.mail_gap).
Proof.
  split; [repeat split; reflexivity|].
  destruct (smtpConf_Validate_sender Sample.IsEmail Sample.ValidateStruct
              Sample.mail_no_sender eq_refl) as [Hempty _].
  destruct (smtpConf_Validate_sender Sample.IsEmail Sample.ValidateStruct
              Sample.mail_gap eq_refl) as [_ Hbad].
  destruct (Hempty eq_refl) as [Hnone Hreq].
  split; [exact Hnone|]. split; [exact Hreq|].
  apply Hbad; [discriminate | reflexivity].
Defined.

Lemma smtpConf_Validate_blank_recipient_witness :
  (smtp_UseThisTime Sample.mail_blank_to = true
   /\ To Sample.mail_blank_to = "" :: ["garbage"]
   /\ Cc Sample.mail_blank_to = ["junk"]
   /\ Sample.IsEmail "garbage" = false /\ Sample.IsEmail "junk" = false)
  /\ smtpConf_Validate Sample.IsEmail Sample.ValidateStruct Sample.mail_blank_to
     = [].
Proof.
  split; [repeat split; reflexivity|].
  apply (smtpConf_Validate_blank_recipient Sample.IsEmail Sample.ValidateStruct
           Sample.mail_blank_to ["garbage"]);
    try reflexivity; discriminate.
Defined.

Lemma Config_Validate_frame_witness :
  (Servers Sample.config_other <> Servers Sample.config
   /\ Lang Sample.config_other <> Lang Sample.config)
  /\ Config_Validate_errs Sample.IsFilePath Sample.IsEmail Sample.ValidateStruct
       Sample.config_other
     = Config_Validate_errs Sample.IsFilePath Sample.IsEmail Sample.ValidateStruct
         Sample.config
  /\ (Config_Validate Sample.IsFilePath Sample.IsEmail Sample.ValidateStruct
        Sample.config_other (mk_World zero_Config [])).1
     = (Config_Validate Sample.IsFilePath Sample.IsEmail Sample.ValidateStruct
          Sample.config (mk_World zero_Config [])).1.
Proof.
  split.
  - split; [|discriminate].
    intros E. apply (f_equal (fun m => m !! "web")) in E.
    vm_compute in E. discriminate E.
  - apply (Config_Validate_frame Sample.IsFilePath Sample.IsEmail
             Sample.ValidateStruct Sample.config_other Sample.config
             (mk_World zero_Config [])); reflexivity.
Defined.

Example Validate_mail_no_sender :
  smtpConf_Validate Sample.IsEmail Sample.ValidateStruct Sample.mail_no_sender
  = [ ErrorString "From required at least one address" ].
Proof. reflexivity. Qed.

Example Validate_slack_blank :
  SlackConf_Validate Sample.ValidateStruct Sample.slack_blank
  = [ ErrorString "hookURL must not be empty";
      ErrorString "channel must not be empty";
      ErrorString "authUser must not be empty" ].
Proof. reflexivity. Qed.

(** ** Slices and the heap *)

Lemma slice_ok_spec (h : gmap positive (list string)) (s : slice) :
  slice_ok h s = true
  <-> slice_len s <= slice_cap s
      /\ slice_off s + slice_cap s <= length (backing h s).
Proof.
  unfold slice_ok. rewrite andb_true_iff, !Nat.leb_le. reflexivity.
Qed.

Lemma contents_length (h : gmap positive (list string)) (s : slice) :
  slice_ok h s = true -> length (contents h s) = slice_len s.
Proof.
  intros [Hlen Hcap]%slice_ok_spec. unfold contents.
  rewrite length_take, length_drop. lia.
Qed.

Lemma backing_subseteq (h0 h : gmap positive (list string)) (s : slice)
  (a : list string) :
  h0 ⊆ h -> h0 !! slice_array s = Some a -> backing h s = backing h0 s.
Proof.
  intros Hsub Ha. unfold backing. rewrite Ha.
  now rewrite (lookup_weaken _ _ _ _ Ha Hsub).
Qed.

(** A header that is in order in a heap reads the same elements in every
    heap that keeps the arrays of the first. *)
Lemma contents_subseteq (h0 h : gmap positive (list string)) (s : slice) :
  h0 ⊆ h -> slice_ok h0 s = true -> contents h s = contents h0 s.
Proof.
  intros Hsub [Hlen Hcap]%slice_ok_spec. unfold contents.
  destruct (h0 !! slice_array s) as [a|] eqn:Ha.
  - now rewrite (backing_subseteq h0 h s a Hsub Ha).
  - unfold backing in Hcap. rewrite Ha in Hcap. cbn in Hcap.
    assert (E : slice_len s = 0) by lia. now rewrite E.
Qed.

Lemma slice_ok_subseteq (h0 h : gmap positive (list string)) (s : slice) :
  h0 ⊆ h -> slice_ok h0 s = true -> slice_ok h s = true.
Proof.
  intros Hsub Hok. pose proof Hok as [Hlen Hcap]%slice_ok_spec.
  apply slice_ok_spec. split; [exact Hlen|].
  destruct (h0 !! slice_array s) as [a|] eqn:Ha.
  - now rewrite (backing_subseteq h0 h s a Hsub Ha).
  - unfold backing in Hcap. rewrite Ha in Hcap. cbn in Hcap. lia.
Qed.

Lemma store_at_length (a : list string) (i : nat) (xs : list string) :
  i + length xs <= length a -> length (store_at a i xs) = length a.
Proof.
  intros H. unfold store_at. rewrite !length_app, length_take, length_drop. lia.
Qed.

Lemma store_at_contents (a : list string) (off len : nat) (xs : list string) :
  off + len + length xs <= length a ->
  take (len + length xs) (drop off (store_at a (off + len) xs))
  = take len (drop off a) ++ xs.
Proof.
  intros H. unfold store_at.
  rewrite drop_app_le by (rewrite length_take; lia).
  rewrite <- take_drop_commute.
  rewrite app_assoc. apply take_app_length'.
  rewrite length_app, length_take, length_drop. lia.
Qed.

Lemma store_at_nil (i : nat) : store_at [] i [] = [].
Proof. unfold store_at. now rewrite take_nil, drop_nil. Qed.

Section HeapProperties.

Context (growcap : nat -> nat -> nat).
Hypothesis growcap_ok : forall old needed : nat, needed <= growcap old needed.

Lemma append_state (s : slice) (xs : list string) (p : Process) :
  global_Conf (append growcap s xs p).2 = global_Conf p
  /\ written (append growcap s xs p).2 = written p.
Proof using Type.
  unfold append. cbv zeta.
  destruct (slice_len s + length xs <=? slice_cap s); split; reflexivity.
Qed.

(** [append] leaves every array of [h0] alone when its target is not one of
    them or has to grow, and the slice it returns is then not one of them
    either. *)
Lemma append_frame (h0 : gmap positive (list string)) (s : slice)
  (xs : list string) (p : Process) :
  h0 ⊆ heap p ->
  h0 !! slice_array s = None \/ slice_cap s < slice_len s + length xs ->
  h0 ⊆ heap (append growcap s xs p).2
  /\ h0 !! slice_array (append growcap s xs p).1 = None.
Proof using Type.
  intros Hsub Hown. unfold append. cbv zeta.
  destruct (slice_len s + length xs <=? slice_cap s) eqn:E; cbn [fst snd heap slice_array].
  - apply Nat.leb_le in E. destruct Hown as [Hown | Hgrow]; [|lia].
    split; [|exact Hown].
    apply map_subseteq_spec. intros l a Hl.
    rewrite lookup_alter_ne by congruence.
    exact (lookup_weaken _ _ _ _ Hl Hsub).
  - assert (Hfresh : heap p !! fresh (dom (heap p)) = None).
    { apply not_elem_of_dom. apply is_fresh. }
    split.
    + etransitivity; [exact Hsub|]. now apply insert_subseteq.
    + destruct (h0 !! fresh (dom (heap p))) as [a|] eqn:Ha; [|reflexivity].
      rewrite (lookup_weaken _ _ _ _ Ha Hsub) in Hfresh. discriminate Hfresh.
Qed.

(** [append] returns a header in order whose elements are those of its
    target followed by the appended values. *)
Lemma append_contents (s : slice) (xs : list string) (p : Process) :
  slice_ok (heap p) s = true ->
  slice_ok (heap (append growcap s xs p).2) (append growcap s xs p).1 = true
  /\ contents (heap (append growcap s xs p).2) (append growcap s xs p).1
     = contents (heap p) s ++ xs.
Proof using growcap_ok.
  intros Hok. pose proof Hok as [Hlen Hcap]%slice_ok_spec.
  unfold append. cbv zeta.
  destruct (slice_len s + length xs <=? slice_cap s) eqn:E;
    cbn [fst snd heap].
  - apply Nat.leb_le in E.
    assert (Hback : backing
              (alter (fun a => store_at a (slice_off s + slice_len s) xs)
                 (slice_array s) (heap p))
              (mk_slice (slice_array s) (slice_off s)
                 (slice_len s + length xs) (slice_cap s))
            = store_at (backing (heap p) s) (slice_off s + slice_len s) xs).
    { unfold backing in *. cbn [slice_array]. rewrite lookup_alter_eq.
      destruct (heap p !! slice_array s) as [a|]; cbn in *; [reflexivity|].
      assert (Hxs : xs = []) by (apply length_zero_iff_nil; lia).
      subst xs. now rewrite store_at_nil. }
    split.
    + apply slice_ok_spec. cbn [slice_len slice_cap slice_off].
      rewrite Hback, store_at_length by lia. split; [exact E | exact Hcap].
    + unfold contents. cbn [slice_len slice_off]. rewrite Hback.
      apply store_at_contents. lia.
  - apply Nat.leb_gt in E.
    pose proof (growcap_ok (slice_cap s) (slice_len s + length xs)) as Hgrow.
    pose proof (contents_length _ _ Hok) as Hcl.
    assert (Hback : backing
              (<[fresh (dom (heap p)) :=
                   contents (heap p) s ++ xs ++
                   replicate (growcap (slice_cap s) (slice_len s + length xs)
                              - (slice_len s + length xs)) ""]> (heap p))
              (mk_slice (fresh (dom (heap p))) 0 (slice_len s + length xs)
                 (growcap (slice_cap s) (slice_len s + length xs)))
            = contents (heap p) s ++ xs ++
              replicate (growcap (slice_cap s) (slice_len s + length xs)
                         - (slice_len s + length xs)) "").
    { unfold backing. cbn [slice_array]. now rewrite lookup_insert_eq. }
    split.
    + apply slice_ok_spec. cbn [slice_len slice_cap slice_off].
      rewrite Hback, !length_app, length_replicate, Hcl. lia.
    + unfold contents at 1. cbn [slice_len slice_off]. rewrite Hback.
      rewrite drop_0, app_assoc. apply take_app_length'.
      rewrite length_app, Hcl. reflexivity.
Qed.

End HeapProperties.

(** ** The validators in memory *)

Lemma append_nonempty_nil {A : Type} (more : list A) :
  (if 0 <? length more then more else []) = more.
Proof. now destruct more. Qed.

Lemma for_range_mem_log (errs : list error) (p : Process) :
  for_range_mem errs log_Error_mem p
  = (tt, mk_Process (heap p) (global_Conf p) (written p ++ errs)).
Proof.
  revert p. induction errs as [|e errs IH]; intros [h conf out]; simpl.
  - unfold run_ret. now rewrite app_nil_r.
  - unfold run_bind, log_Error_mem. simpl. rewrite IH. simpl.
    now rewrite <- app_assoc.
Qed.

Section MemoryProperties.

Context (growcap : nat -> nat -> nat).
Hypothesis growcap_ok : forall old needed : nat, needed <= growcap old needed.
Context (IsFilePath : string -> bool * Z).
Context (IsEmail : string -> bool).
Context (ValidateStruct : forall A : Type, Struct A -> A -> bool * option Errors).

Lemma checkEmails_mem_range_spec (emails : slice) (p : Process) (n i : nat)
  (errs : list error) :
  slice_ok (heap p) emails = true ->
  i + n = slice_len emails ->
  checkEmails_mem_range IsEmail emails i n errs p
  = (checkEmails_range IsEmail (drop i (contents (heap p) emails)) errs, p).
Proof using Type.
  intros Hok. pose proof Hok as [Hlen Hcap]%slice_ok_spec.
  pose proof (contents_length _ _ Hok) as Hcl.
  revert i errs. induction n as [|n IH]; intros i errs Hin; simpl.
  - rewrite drop_ge by lia. reflexivity.
  - unfold run_bind, index.
    assert (Hi : contents (heap p) emails !! i
                 = backing (heap p) emails !! (slice_off emails + i)).
    { unfold contents. rewrite lookup_take, lookup_drop.
      destruct (decide (i < slice_len emails)); [reflexivity | lia]. }
    destruct (contents (heap p) emails !! i) as [addr|] eqn:Ea.
    + rewrite <- Hi. cbn [default from_option id].
      rewrite (drop_S _ _ _ Ea). cbn [checkEmails_range].
      destruct (Go.len addr =? 0); [reflexivity|].
      apply IH. lia.
    + apply lookup_ge_None in Ea. lia.
Qed.

Lemma checkEmails_mem_spec (emails : slice) (p : Process) :
  slice_ok (heap p) emails = true ->
  checkEmails_mem IsEmail emails p
  = (checkEmails IsEmail (contents (heap p) emails), p).
Proof using Type.
  intros Hok. unfold checkEmails_mem, checkEmails.
  now rewrite checkEmails_mem_range_spec by (exact Hok || lia).
Qed.

(** The mail block's [Validate] returns what the validator on lists returns
    for the block's elements, keeps every array that was there and writes
    neither the log nor [Conf]. *)
Lemma smtpConf_Validate_mem_spec (c : smtpConf_mem) (p : Process) :
  slice_ok (heap p) (mem_To c) = true ->
  slice_ok (heap p) (mem_Cc c) = true ->
  (smtpConf_Validate_mem growcap IsEmail ValidateStruct c p).1
  = smtpConf_Validate IsEmail ValidateStruct (load_smtpConf (heap p) c)
  /\ heap p ⊆ heap (smtpConf_Validate_mem growcap IsEmail ValidateStruct c p).2
  /\ global_Conf (smtpConf_Validate_mem growcap IsEmail ValidateStruct c p).2
     = global_Conf p
  /\ written (smtpConf_Validate_mem growcap IsEmail ValidateStruct c p).2
     = written p.
Proof using growcap_ok.
  intros HTo HCc. unfold smtpConf_Validate_mem.
  destruct (mem_smtp_UseThisTime c) eqn:Hon; cbn [negb];
    [|now rewrite smtpConf_Validate_disabled].
  rewrite smtpConf_Validate_enabled by exact Hon.
  cbv zeta. unfold run_bind, append_slice.
  (* emails = append(emails, c.From) *)
  pose proof (append_state growcap empty_slice [mem_From c] p) as [Hc1 Hw1].
  pose proof (append_frame growcap (heap p) empty_slice [mem_From c] p
                (reflexivity _)) as [Hs1 Hf1]; [right; cbn; lia|].
  pose proof (append_contents growcap growcap_ok empty_slice [mem_From c] p
                eq_refl) as [Hok1 Hct1].
  destruct (append growcap empty_slice [mem_From c] p) as [e1 p1].
  cbn [fst snd] in *.
  (* emails = append(emails, c.To...) *)
  rewrite (contents_subseteq _ _ _ Hs1 HTo).
  pose proof (append_state growcap e1 (contents (heap p) (mem_To c)) p1)
    as [Hc2 Hw2].
  pose proof (append_frame growcap (heap p) e1 (contents (heap p) (mem_To c)) p1
                Hs1 (or_introl Hf1)) as [Hs2 Hf2].
  pose proof (append_contents growcap growcap_ok e1
                (contents (heap p) (mem_To c)) p1 Hok1) as [Hok2 Hct2].
  destruct (append growcap e1 (contents (heap p) (mem_To c)) p1) as [e2 p2].
  cbn [fst snd] in *.
  (* emails = append(emails, c.Cc...) *)
  rewrite (contents_subseteq _ _ _ Hs2 HCc).
  pose proof (append_state growcap e2 (contents (heap p) (mem_Cc c)) p2)
    as [Hc3 Hw3].
  pose proof (append_frame growcap (heap p) e2 (contents (heap p) (mem_Cc c)) p2
                Hs2 (or_introl Hf2)) as [Hs3 Hf3].
  pose proof (append_contents growcap growcap_ok e2
                (contents (heap p) (mem_Cc c)) p2 Hok2) as [Hok3 Hct3].
  destruct (append growcap e2 (contents (heap p) (mem_Cc c)) p2) as [e3 p3].
  cbn [fst snd] in *.
  rewrite checkEmails_mem_spec by exact Hok3.
  rewrite Hct3, Hct2, Hct1.
  assert (Hload : load_smtpConf (heap p3) c = load_smtpConf (heap p) c).
  { unfold load_smtpConf.
    now rewrite (contents_subseteq _ _ _ Hs3 HTo), (contents_subseteq _ _ _ Hs3 HCc). }
  rewrite Hload.
  assert (Hnil : contents (heap p) empty_slice = []) by reflexivity.
  rewrite Hnil. cbn [app fst snd].
  split; [|split; [exact Hs3 | split; congruence]].
  unfold missing_mail_fields, struct_violation.
  cbn [SMTPAddr SMTPPort To From Cc load_smtpConf].
  rewrite append_nonempty_nil, !len_zero, <- (contents_length _ _ HTo), length_zero.
  generalize (checkEmails IsEmail
                (mem_From c :: contents (heap p) (mem_To c)
                 ++ contents (heap p) (mem_Cc c))) as es.
  intros es.
  destruct (Go.streq (mem_SMTPAddr c) ""), (Go.streq (mem_SMTPPort c) ""),
    (bool_decide (contents (heap p) (mem_To c) = [])),
    (Go.streq (mem_From c) ""),
    (ValidateStruct smtpConf Struct_smtpConf (load_smtpConf (heap p) c)).2;
    cbn [violation_if app fst]; rewrite <- ?app_assoc, ?app_nil_r; reflexivity.
Qed.

Lemma SlackConf_Validate_mem_spec (c : SlackConf_mem) (p : Process) :
  SlackConf_Validate_mem ValidateStruct c p
  = (SlackConf_Validate ValidateStruct (load_SlackConf (heap p) c), p).
Proof using Type.
  unfold SlackConf_Validate_mem, SlackConf_Validate.
  cbn [Slack_UseThisTime load_SlackConf].
  destruct (mem_Slack_UseThisTime c); reflexivity.
Qed.

(** [Validate] on settings in memory returns and logs what [Validate] on
    their elements does, and keeps every array that was there. *)
Lemma Config_Validate_mem_spec (c : Config_mem) (p : Process) :
  settings_ok (heap p) c = true ->
  (Config_Validate_mem growcap IsFilePath IsEmail ValidateStruct c p).1
  = (length (Config_Validate_errs IsFilePath IsEmail ValidateStruct
               (load_Config (heap p) c)) =? 0)
  /\ written (Config_Validate_mem growcap IsFilePath IsEmail ValidateStruct c p).2
     = written p
       ++ Config_Validate_errs IsFilePath IsEmail ValidateStruct
            (load_Config (heap p) c)
  /\ heap p ⊆ heap (Config_Validate_mem growcap IsFilePath IsEmail ValidateStruct c p).2
  /\ global_Conf (Config_Validate_mem growcap IsFilePath IsEmail ValidateStruct c p).2
     = global_Conf p.
Proof using growcap_ok.
  intros Hok. unfold settings_ok in Hok.
  apply andb_true_iff in Hok as [Hok HNo]. apply andb_true_iff in Hok as [HTo HCc].
  pose proof (smtpConf_Validate_mem_spec (mem_Mail c) p HTo HCc)
    as (Hm & Hs & Hc & Hw).
  assert (Hl : load_SlackConf
                 (heap (smtpConf_Validate_mem growcap IsEmail ValidateStruct
                          (mem_Mail c) p).2) (mem_Slack c)
               = load_SlackConf (heap p) (mem_Slack c)).
  { unfold load_SlackConf. now rewrite (contents_subseteq _ _ _ Hs HNo). }
  unfold Config_Validate_mem. cbv zeta. unfold run_bind. cbn beta iota.
  destruct (smtpConf_Validate_mem growcap IsEmail ValidateStruct (mem_Mail c) p)
    as [mailerrs p1].
  cbn [fst snd] in Hm, Hs, Hc, Hw, Hl. subst mailerrs.
  rewrite SlackConf_Validate_mem_spec, Hl. cbn beta iota.
  rewrite for_range_mem_log. unfold run_ret.
  cbn [fst snd written heap global_Conf].
  rewrite Hw.
  unfold Config_Validate_errs. cbv zeta.
  cbn [JSONBaseDir CveDBPath Mail Slack load_Config].
  split; [reflexivity|]. split; [reflexivity|].
  split; [exact Hs | exact Hc].
Qed.

End MemoryProperties.

Section ValidateTwice.

Context (growcap : nat -> nat -> nat).
Hypothesis growcap_ok : forall old needed : nat, needed <= growcap old needed.
Context (IsFilePath : string -> bool * Z).
Context (IsEmail : string -> bool).
Context (ValidateStruct : forall A : Type, Struct A -> A -> bool * option Errors).

Local Abbreviation Validate_mem :=
  (Config_Validate_mem growcap IsFilePath IsEmail ValidateStruct).

(** C8.  Run [Validate] on settings whose slices are in order, then run it
    again on the same settings in the process the first run left (its log
    longer, its heap holding the arrays the first run allocated).  Both runs
    return the same boolean and log the same errors in the same order, those
    of the validator on the settings' elements.  Neither run writes into an
    array that existed before: the heap only grows, so every slice that was
    in order, whether it belongs to the settings or shares an array with
    them, still has the same elements, and the settings read back the same.
    The global [Conf] is not assigned, and the two calls made on [Conf]
    itself are these two runs.  The format predicates and the struct pass
    are functions of the values they are given. *)
Theorem Config_Validate_mem_twice (c : Config_mem) (p : Process) :
  settings_ok (heap p) c = true ->
  let first := Validate_mem c p in
  let second := Validate_mem c first.2 in
  let errs :=
    Config_Validate_errs IsFilePath IsEmail ValidateStruct
      (load_Config (heap p) c) in
  first.1 = second.1
  /\ written first.2 = written p ++ errs
  /\ written second.2 = written first.2 ++ errs
  /\ heap p ⊆ heap first.2
  /\ heap p ⊆ heap second.2
  /\ (forall s : slice,
        slice_ok (heap p) s = true ->
        contents (heap first.2) s = contents (heap p) s
        /\ contents (heap second.2) s = contents (heap p) s)
  /\ load_Config (heap first.2) c = load_Config (heap p) c
  /\ load_Config (heap second.2) c = load_Config (heap p) c
  /\ global_Conf first.2 = global_Conf p
  /\ global_Conf second.2 = global_Conf p
  /\ (c = global_Conf p ->
      Conf_Validate_mem growcap IsFilePath IsEmail ValidateStruct p = first
      /\ Conf_Validate_mem growcap IsFilePath IsEmail ValidateStruct first.2
         = second).
Proof using growcap_ok.
  intros Hok. cbv zeta.
  pose proof (Config_Validate_mem_spec growcap growcap_ok IsFilePath IsEmail
                ValidateStruct c p Hok) as (Hb1 & Hw1 & Hs1 & Hc1).
  set (first := Validate_mem c p) in *.
  assert (Hok1 : settings_ok (heap first.2) c = true).
  { unfold settings_ok in *.
    apply andb_true_iff in Hok as [Hok HNo].
    apply andb_true_iff in Hok as [HTo HCc].
    now rewrite !(slice_ok_subseteq _ _ _ Hs1) by assumption. }
  assert (Hload : forall h : gmap positive (list string),
            heap p ⊆ h -> load_Config h c = load_Config (heap p) c).
  { intros h Hsub. unfold settings_ok in Hok.
    apply andb_true_iff in Hok as [Hok HNo].
    apply andb_true_iff in Hok as [HTo HCc].
    unfold load_Config, load_smtpConf, load_SlackConf.
    now rewrite !(contents_subseteq _ _ _ Hsub) by assumption. }
  pose proof (Config_Validate_mem_spec growcap growcap_ok IsFilePath IsEmail
                ValidateStruct c first.2 Hok1) as (Hb2 & Hw2 & Hs2 & Hc2).
  set (second := Validate_mem c first.2) in *.
  rewrite (Hload _ Hs1) in Hb2, Hw2.
  assert (Hs12 : heap p ⊆ heap second.2) by (etransitivity; eassumption).
  split; [congruence|].
  split; [exact Hw1|]. split; [exact Hw2|].
  split; [exact Hs1|]. split; [exact Hs12|].
  split.
  { intros s Hs. split; now apply contents_subseteq. }
  split; [now apply Hload|]. split; [now apply Hload|].
  split; [exact Hc1|]. split; [congruence|].
  intros ->. unfold Conf_Validate_mem. fold first. rewrite Hc1. now fold second.
Qed.

End ValidateTwice.

(** The settings [Sample.process] holds: [To] and [Cc] share one array and
    [To] has room for two more elements; the copy address is malformed.
    Both runs log that one error, and the shared array is as it was. *)
Lemma Config_Validate_mem_twice_witness :
  ((forall old needed : nat, needed <= Sample.growcap old needed)
   /\ settings_ok (heap Sample.process) Sample.config_mem = true)
  /\ (let first :=
        Config_Validate_mem Sample.growcap Sample.IsFilePath Sample.IsEmail
          Sample.ValidateStruct Sample.config_mem Sample.process in
      let second :=
        Config_Validate_mem Sample.growcap Sample.IsFilePath Sample.IsEmail
          Sample.ValidateStruct Sample.config_mem first.2 in
      first.1 = second.1
      /\ written first.2 = [invalid_email_error "junk"]
      /\ written second.2 = [invalid_email_error "junk"; invalid_email_error "junk"]
      /\ heap Sample.process ⊆ heap second.2
      /\ global_Conf second.2 = Sample.config_mem).
Proof.
  assert (Hgrow : forall old needed : nat, needed <= Sample.growcap old needed).
  { intros old needed. unfold Sample.growcap. lia. }
  split; [split; [exact Hgrow | reflexivity]|].
  destruct (Config_Validate_mem_twice Sample.growcap Hgrow Sample.IsFilePath
              Sample.IsEmail Sample.ValidateStruct Sample.config_mem
              Sample.process eq_refl)
    as (Hb & Hw1 & Hw2 & _ & Hs & _ & _ & _ & _ & Hc & _).
  cbv zeta. split; [exact Hb|]. split; [exact Hw1|].
  split; [rewrite Hw2, Hw1; reflexivity|]. split; [exact Hs | exact Hc].
Defined.

(** An [append] to [To] itself, which has the room, would write over the
    element of [Cc] that lies behind it in the shared array. *)
Example append_in_place_reaches_shared_array :
  contents
    (heap (append Sample.growcap (mem_To Sample.mail_mem) ["x"] Sample.process).2)
    (mem_Cc Sample.mail_mem)
  = ["x"]
  /\ contents (heap Sample.process) (mem_Cc Sample.mail_mem) = ["junk"].
Proof. split; reflexivity. Qed.

Example Validate_mem_sample_run :
  (Config_Validate_mem Sample.growcap Sample.IsFilePath Sample.IsEmail
     Sample.ValidateStruct Sample.config_mem Sample.process).1 = false
  /\ heap (Config_Validate_mem Sample.growcap Sample.IsFilePath Sample.IsEmail
             Sample.ValidateStruct Sample.config_mem Sample.process).2
       !! 1%positive
     = Some ["c@d.com"; "junk"; ""].
Proof. split; vm_compute; reflexivity. Qed.
